(** * visualweb-scraper: a shallow embedding of the extraction pipeline

    The development follows [src/webscraper_v7.py] (the fetch / extract /
    normalise pipeline) and [src/visualscraper_v2.py] (palette extraction).

    Conventions of the embedding
    - Python [str] values are [string]s of 8-bit characters; [lower] folds the
      ASCII letters, every other character is left alone.
    - A Python call that may raise returns a [Result]: [Ok v] or [Raise e].
      Every exception modelled here is an instance of Python's [Exception].
    - Functions of the Python standard library that the scraper calls
      ([urlparse], [datetime.fromisoformat], [email.utils], [str] methods,
      [os.path.basename], [int], [re] with the patterns of the source) are
      modelled as closed, executable definitions in the modules [Str], [Url],
      [Dates] and [Re].
    - Third-party libraries and the network (requests, robots.txt, lxml and
      BeautifulSoup parsing, langdetect, tinycss2, cssutils, PIL, k-means) and
      the iteration order of Python sets are fields of a [World] record: the
      program is a function of the world it runs in. *)

From Stdlib Require Import List String Ascii Bool Arith ZArith QArith Qround Lia Permutation.
Import ListNotations.
Close Scope Q_scope.
#[local] Set Warnings "-register-all,-abstract-large-number".
Local Open Scope string_scope.
Local Open Scope list_scope.

(* ================================================================== *)
(** * Python exceptions and results *)

Inductive exn_class : Type :=
| ValueError | TypeError | IndexError | KeyError | OverflowError
| LangDetectException | HTTPError | ConnectionError | OtherException.

Record exn : Type := mkExn { exn_cls : exn_class; exn_msg : string }.

(** [str(e)] *)
Definition str_of_exn (e : exn) : string := exn_msg e.

Inductive Result (A : Type) : Type :=
| Ok (a : A)
| Raise (e : exn).
Arguments Ok {A} a.
Arguments Raise {A} e.

Definition rbind {A B} (r : Result A) (k : A -> Result B) : Result B :=
  match r with
  | Ok a => k a
  | Raise e => Raise e
  end.

Declare Scope result_scope.
Delimit Scope result_scope with res.
Notation "x <- e ;; k" := (rbind e (fun x => k))
  (at level 61, e at next level, right associativity) : result_scope.

(** [try: e  except Exception: d] *)
Definition try_or {A} (r : Result A) (d : A) : A :=
  match r with Ok a => a | Raise _ => d end.

Definition eqb_cls (a b : exn_class) : bool :=
  match a, b with
  | ValueError, ValueError | TypeError, TypeError | IndexError, IndexError
  | KeyError, KeyError | OverflowError, OverflowError
  | LangDetectException, LangDetectException | HTTPError, HTTPError
  | ConnectionError, ConnectionError | OtherException, OtherException => true
  | _, _ => false
  end.

(* ================================================================== *)
(** * Python [str] operations *)

Module Str.

Definition code (c : ascii) : nat := nat_of_ascii c.

Definition between (lo hi : nat) (c : ascii) : bool :=
  Nat.leb lo (code c) && Nat.leb (code c) hi.

Definition is_upper (c : ascii) : bool := between 65 90 c.
Definition is_lower (c : ascii) : bool := between 97 122 c.
Definition is_digit (c : ascii) : bool := between 48 57 c.
Definition is_alpha (c : ascii) : bool := is_upper c || is_lower c.
(** [\w] of [re] on ASCII text *)
Definition is_word (c : ascii) : bool :=
  is_alpha c || is_digit c || Ascii.eqb c "_".
(** [str.isspace]: tab, LF, VT, FF, CR, FS, GS, RS, US, space *)
Definition is_space (c : ascii) : bool :=
  between 9 13 c || between 28 32 c.

Definition lower_char (c : ascii) : ascii :=
  if is_upper c then ascii_of_nat (code c + 32) else c.

(** [s.lower()] *)
Fixpoint lower (s : string) : string :=
  match s with
  | EmptyString => EmptyString
  | String c s' => String (lower_char c) (lower s')
  end.

Definition upper_char (c : ascii) : ascii :=
  if is_lower c then ascii_of_nat (code c - 32) else c.

(** [s.upper()] *)
Fixpoint upper (s : string) : string :=
  match s with
  | EmptyString => EmptyString
  | String c s' => String (upper_char c) (upper s')
  end.

(** [s.startswith(p)] *)
Fixpoint startswith (p s : string) : bool :=
  match p, s with
  | EmptyString, _ => true
  | String a p', String b s' => Ascii.eqb a b && startswith p' s'
  | String _ _, EmptyString => false
  end.

(** [sub in s] *)
Fixpoint contains (sub s : string) : bool :=
  startswith sub s ||
  match s with
  | EmptyString => false
  | String _ s' => contains sub s'
  end.

(** [any(k in s for k in ks)] *)
Definition contains_any (ks : list string) (s : string) : bool :=
  existsb (fun k => contains k s) ks.

(** [s[n:]] *)
Fixpoint drop (n : nat) (s : string) : string :=
  match n, s with
  | O, _ => s
  | S n', String _ s' => drop n' s'
  | S _, EmptyString => EmptyString
  end.

(** [s[:n]] *)
Fixpoint take (n : nat) (s : string) : string :=
  match n, s with
  | S n', String c s' => String c (take n' s')
  | _, _ => EmptyString
  end.

Definition rev (s : string) : string :=
  string_of_list_ascii (List.rev (list_ascii_of_string s)).

(** [s.endswith(p)] *)
Definition endswith (p s : string) : bool := startswith (rev p) (rev s).

(** [s.find(c)] for a one-character needle: [None] stands for [-1] *)
Fixpoint find_char (c : ascii) (s : string) : option nat :=
  match s with
  | EmptyString => None
  | String d s' =>
      if Ascii.eqb c d then Some O
      else option_map S (find_char c s')
  end.

(** [s.lstrip(chars)] and [s.strip(chars)] for a character class *)
Fixpoint lstrip_by (p : ascii -> bool) (s : string) : string :=
  match s with
  | EmptyString => EmptyString
  | String c s' => if p c then lstrip_by p s' else s
  end.
Definition rstrip_by (p : ascii -> bool) (s : string) : string :=
  rev (lstrip_by p (rev s)).
Definition strip_by (p : ascii -> bool) (s : string) : string :=
  rstrip_by p (lstrip_by p s).
(** [s.strip()] *)
Definition strip (s : string) : string := strip_by is_space s.

(** removes every character of a class: [s.replace(c, empty)] for each [c] *)
Fixpoint remove_chars (p : ascii -> bool) (s : string) : string :=
  match s with
  | EmptyString => EmptyString
  | String c s' => if p c then remove_chars p s' else String c (remove_chars p s')
  end.

(** [s.replace(old, new)] for a non-empty [old]: non-overlapping
    occurrences, leftmost first.  [skip] counts the characters of a matched
    occurrence that are still to be dropped. *)
Fixpoint replace_aux (old new : string) (skip : nat) (s : string) : string :=
  match s with
  | EmptyString => EmptyString
  | String c s' =>
      match skip with
      | S k => replace_aux old new k s'
      | O =>
          if startswith old s
          then new ++ replace_aux old new (String.length old - 1) s'
          else String c (replace_aux old new O s')
      end
  end.
Definition replace (old new s : string) : string := replace_aux old new O s.

(** [sep.join(l)] *)
Fixpoint join (sep : string) (l : list string) : string :=
  match l with
  | [] => EmptyString
  | [x] => x
  | x :: l' => x ++ sep ++ join sep l'
  end.

(** [s.split(c)] for a one-character separator: the pieces between the
    separators, empty pieces included. *)
Fixpoint split_char (c : ascii) (s : string) : list string :=
  match s with
  | EmptyString => [EmptyString]
  | String d s' =>
      if Ascii.eqb c d then EmptyString :: split_char c s'
      else match split_char c s' with
           | [] => [String d EmptyString]
           | w :: ws => String d w :: ws
           end
  end.

(** [s.split()]: maximal runs of non-whitespace characters.  [cur] is the
    run being read, reversed. *)
Fixpoint split_ws_aux (cur : list ascii) (s : string) : list string :=
  match s with
  | EmptyString =>
      match cur with
      | [] => []
      | _ => [string_of_list_ascii (List.rev cur)]
      end
  | String c s' =>
      if is_space c then
        match cur with
        | [] => split_ws_aux [] s'
        | _ => string_of_list_ascii (List.rev cur) :: split_ws_aux [] s'
        end
      else split_ws_aux (c :: cur) s'
  end.
Definition split_ws (s : string) : list string := split_ws_aux [] s.

(** [s.rfind(c)]: [None] stands for [-1] *)
Definition rfind_char (c : ascii) (s : string) : option nat :=
  match find_char c (rev s) with
  | None => None
  | Some j => Some (String.length s - 1 - j)
  end.

(** [s[-1]]: [None] stands for [IndexError] *)
Definition last_char (s : string) : option ascii :=
  match rev s with
  | EmptyString => None
  | String c _ => Some c
  end.

(** [s[:-1]] *)
Definition drop_last (s : string) : string := take (String.length s - 1) s.

(** [x in l] for a list of strings *)
Definition mem (x : string) (l : list string) : bool :=
  existsb (String.eqb x) l.

(** [l.index(x)]: [None] stands for [ValueError] *)
Fixpoint index_of (x : string) (l : list string) : option nat :=
  match l with
  | [] => None
  | y :: l' => if String.eqb x y then Some O else option_map S (index_of x l')
  end.

(** [os.path.basename(p)]: what follows the last slash *)
Definition basename (p : string) : string :=
  List.last (split_char "/" p) EmptyString.

(** Python truthiness of a string *)
Definition truthy (s : string) : bool :=
  match s with EmptyString => false | String _ _ => true end.

End Str.

(* ================================================================== *)
(** * [urllib.parse.urlparse] *)

Module Url.
Import Str.

Record ParseResult : Type := mkParse { scheme : string; netloc : string; rest : string }.

(** the characters allowed in a scheme *)
Definition scheme_char (c : ascii) : bool :=
  is_alpha c || is_digit c || Ascii.eqb c "+" || Ascii.eqb c "-" || Ascii.eqb c ".".

Fixpoint all_chars (p : ascii -> bool) (s : string) : bool :=
  match s with
  | EmptyString => true
  | String c s' => p c && all_chars p s'
  end.

(** [_splitnetloc(url, 2)] on the text after the two slashes: the netloc
    ends at the first of [/], [?], [#]. *)
Fixpoint splitnetloc (s : string) : string * string :=
  match s with
  | EmptyString => (EmptyString, EmptyString)
  | String c s' =>
      if Ascii.eqb c "/" || Ascii.eqb c "?" || Ascii.eqb c "#" then (EmptyString, s)
      else let '(n, r) := splitnetloc s' in (String c n, r)
  end.

Definition has_char (c : ascii) (s : string) : bool :=
  match find_char c s with Some _ => true | None => false end.

(** [urlsplit]: leading C0 controls and spaces are stripped, tab, CR and LF
    are removed, a scheme is split off when everything before the first colon
    is a scheme character and the first character is a letter, and a netloc
    follows a leading [//].  Unbalanced brackets in the netloc raise
    [ValueError].  (The validation of what stands between balanced brackets,
    and the NFKC check of non-ASCII netlocs, are not part of this model.) *)
Definition urlparse (url : string) : Result ParseResult :=
  let url := lstrip_by (between 0 32) url in
  let url := remove_chars (fun c => Ascii.eqb c "009" || Ascii.eqb c "010" || Ascii.eqb c "013") url in
  let '(sch, url) :=
    match find_char ":" url with
    | Some (S i) =>
        let pre := take (S i) url in
        match url with
        | String c0 _ =>
            if is_alpha c0 && all_chars scheme_char pre
            then (lower pre, drop (S (S i)) url)
            else (EmptyString, url)
        | EmptyString => (EmptyString, url)
        end
    | _ => (EmptyString, url)
    end in
  if startswith "//" url then
    let '(nl, r) := splitnetloc (drop 2 url) in
    if xorb (has_char "[" nl) (has_char "]" nl)
    then Raise (mkExn ValueError "Invalid IPv6 URL")
    else Ok (mkParse sch nl r)
  else Ok (mkParse sch EmptyString url).

End Url.

(* ================================================================== *)
(** * Platform detection *)

Import Str.
Local Open Scope result_scope.

(** [detect_platform(url, html_text)] *)
Definition detect_platform (url html_text : string) : Result string :=
  p <- Url.urlparse url ;;
  let host := lower (Url.netloc p) in
  let html_lower := lower html_text in
  if contains "neocities.org" host then Ok "Neocities"
  else if contains "github.io" host then Ok "GitHub Pages"
  else if contains "netlify.app" host then Ok "Netlify"
  else if contains "vercel.app" host then Ok "Vercel"
  else if contains "wordpress.com" host || contains "wp-content" html_lower then Ok "WordPress"
  else if contains "blogspot." host then Ok "Blogger"
  else if contains "wixsite.com" host then Ok "Wix"
  else if contains "weebly.com" host then Ok "Weebly"
  else if contains "glitch.me" host then Ok "Glitch"
  else if contains "replit.dev" host || contains "repl.co" host then Ok "Replit"
  else if contains "google.com/sites" html_lower then Ok "Google Sites"
  else Ok "Unknown".

(** The classification as the specification words it: an ordered table of
    rules, each with the marks it looks for in the host and in the lowered
    HTML; the first rule with a mark present gives the label. *)
Record PlatformRule : Type := mkRule {
  host_marks : list string;
  html_marks : list string;
  rule_label : string
}.

Definition platform_rules : list PlatformRule :=
  [ mkRule ["neocities.org"] [] "Neocities";
    mkRule ["github.io"] [] "GitHub Pages";
    mkRule ["netlify.app"] [] "Netlify";
    mkRule ["vercel.app"] [] "Vercel";
    mkRule ["wordpress.com"] ["wp-content"] "WordPress";
    mkRule ["blogspot."] [] "Blogger";
    mkRule ["wixsite.com"] [] "Wix";
    mkRule ["weebly.com"] [] "Weebly";
    mkRule ["glitch.me"] [] "Glitch";
    mkRule ["replit.dev"; "repl.co"] [] "Replit";
    mkRule [] ["google.com/sites"] "Google Sites" ].

Definition rule_matches (host html_lower : string) (r : PlatformRule) : bool :=
  contains_any (host_marks r) host || contains_any (html_marks r) html_lower.

Definition first_match (host html_lower : string) : string :=
  match List.find (rule_matches host html_lower) platform_rules with
  | Some r => rule_label r
  | None => "Unknown"
  end.


(* ================================================================== *)
(** * Dates: [datetime] and [email.utils] *)

Module Dates.
Import Str.
Local Open Scope Z_scope.

(** [int(s)] on the text of a token: optional sign, then decimal digits in
    groups separated by single underscores; surrounding whitespace is
    ignored.  [None] stands for [ValueError]. *)
Fixpoint digits_val (acc : Z) (prev_us : bool) (s : string) : option Z :=
  match s with
  | EmptyString => if prev_us then None else Some acc
  | String c s' =>
      if is_digit c then digits_val (10 * acc + (Z.of_nat (code c) - 48)) false s'
      else if Ascii.eqb c "_" then
             (if prev_us then None else digits_val acc true s')
      else None
  end.

Definition py_int (s : string) : option Z :=
  match strip s with
  | String c r =>
      if Ascii.eqb c "-" then
        match r with
        | String d _ => if is_digit d then option_map Z.opp (digits_val 0 false r) else None
        | EmptyString => None
        end
      else if Ascii.eqb c "+" then
        match r with
        | String d _ => if is_digit d then digits_val 0 false r else None
        | EmptyString => None
        end
      else if is_digit c then digits_val 0 false (String c r)
      else None
  | EmptyString => None
  end.

(** The fields of an aware or naive [datetime]; [tzoffset] is the UTC offset
    in microseconds, [None] for a naive value. *)
Record datetime : Type := mkDT {
  year : Z; month : Z; day : Z;
  hour : Z; minute : Z; second : Z; microsecond : Z;
  tzoffset : option Z
}.

Definition is_leap (y : Z) : bool :=
  (y mod 4 =? 0) && (negb (y mod 100 =? 0) || (y mod 400 =? 0)).

Definition days_in_month (y m : Z) : Z :=
  if m =? 2 then (if is_leap y then 29 else 28)
  else if (m =? 4) || (m =? 6) || (m =? 9) || (m =? 11) then 30
  else 31.

(** [_DAYS_BEFORE_MONTH] with the leap day added after February *)
Definition days_before_month (y m : Z) : Z :=
  nth (Z.to_nat m) [0; 0; 31; 59; 90; 120; 151; 181; 212; 243; 273; 304; 334] 0
  + (if (2 <? m) && is_leap y then 1 else 0).

Definition days_before_year (y : Z) : Z :=
  let y1 := y - 1 in y1 * 365 + y1 / 4 - y1 / 100 + y1 / 400.

Definition ymd2ord (y m d : Z) : Z :=
  days_before_year y + days_before_month y m + d.

(** [_ord2ymd] *)
Definition ord2ymd (n0 : Z) : Z * Z * Z :=
  let n := n0 - 1 in
  let n400 := n / 146097 in
  let n := n mod 146097 in
  let n100 := n / 36524 in
  let n := n mod 36524 in
  let n4 := n / 1461 in
  let n := n mod 1461 in
  let n1 := n / 365 in
  let n := n mod 365 in
  let y := n400 * 400 + 1 + n100 * 100 + n4 * 4 + n1 in
  if (n1 =? 4) || (n100 =? 4) then (y - 1, 12, 31)
  else
    let leapyear := (n1 =? 3) && (negb (n4 =? 24) || (n100 =? 3)) in
    let m := Z.shiftr (n + 50) 5 in
    let preceding :=
      nth (Z.to_nat m) [0; 0; 31; 59; 90; 120; 151; 181; 212; 243; 273; 304; 334] 0
      + (if (2 <? m) && leapyear then 1 else 0) in
    if n <? preceding then
      let m' := m - 1 in
      let dim :=
        nth (Z.to_nat m') [0; 31; 28; 31; 30; 31; 30; 31; 31; 30; 31; 30; 31] 0
        + (if (m' =? 2) && leapyear then 1 else 0) in
      (y, m', n - (preceding - dim) + 1)
    else (y, m, n - preceding + 1).

Definition in_range (lo hi x : Z) : bool := (lo <=? x) && (x <=? hi).

Definition day_us : Z := 86400 * 1000000.

(** The [datetime(...)] constructor; [None] stands for the [ValueError] of a
    field out of range.  A UTC offset must be strictly inside one day. *)
Definition make_datetime (y m d hh mi ss us : Z) (tz : option Z) : option datetime :=
  if in_range 1 9999 y && in_range 1 12 m && in_range 1 (days_in_month y m) d
     && in_range 0 23 hh && in_range 0 59 mi && in_range 0 59 ss
     && in_range 0 999999 us
     && match tz with
        | None => true
        | Some o => (- day_us <? o) && (o <? day_us)
        end
  then Some (mkDT y m d hh mi ss us tz)
  else None.

(** ** [datetime.fromisoformat]: the grammar
    [YYYY-MM-DD[*HH[:MM[:SS[.fff[fff]]]][+HH:MM[:SS[.ffffff]]]]] *)

Definition dval (c : ascii) : Z := Z.of_nat (code c) - 48.
Definition two_digits (a b : ascii) : option Z :=
  if is_digit a && is_digit b then Some (10 * dval a + dval b) else None.

Fixpoint all_digits (s : string) : bool :=
  match s with
  | EmptyString => true
  | String c s' => is_digit c && all_digits s'
  end.

Fixpoint digits_num (acc : Z) (s : string) : Z :=
  match s with
  | EmptyString => acc
  | String c s' => digits_num (10 * acc + dval c) s'
  end.

(** [_parse_isoformat_date] on the first ten characters *)
Definition parse_isoformat_date (s : string) : option (Z * Z * Z) :=
  match s with
  | String y1 (String y2 (String y3 (String y4 (String s1
      (String m1 (String m2 (String s2 (String d1 (String d2 _))))))))) =>
      if all_digits (String y1 (String y2 (String y3 (String y4 EmptyString))))
         && Ascii.eqb s1 "-" && Ascii.eqb s2 "-"
      then
        match two_digits m1 m2, two_digits d1 d2 with
        | Some m, Some d =>
            Some (digits_num 0 (String y1 (String y2 (String y3 (String y4 EmptyString)))), m, d)
        | _, _ => None
        end
      else None
  | _ => None
  end.

(** the fraction [.fff[fff]]: three or six digits, in microseconds *)
Definition parse_fraction (f : string) : option Z :=
  if all_digits f then
    if Nat.eqb (String.length f) 3 then Some (digits_num 0 f * 1000)
    else if Nat.eqb (String.length f) 6 then Some (digits_num 0 f)
    else None
  else None.

(** [_parse_hh_mm_ss_ff]: [HH[:MM[:SS[.fff[fff]]]]] *)
Definition parse_hh_mm_ss_ff (t : string) : option (Z * Z * Z * Z) :=
  match t with
  | String a (String b r) =>
      match two_digits a b with
      | None => None
      | Some hh =>
          match r with
          | EmptyString => Some (hh, 0, 0, 0)
          | String sep1 (String c (String d r2)) =>
              if negb (Ascii.eqb sep1 ":") then None else
              match two_digits c d with
              | None => None
              | Some mi =>
                  match r2 with
                  | EmptyString => Some (hh, mi, 0, 0)
                  | String sep2 (String e (String f r3)) =>
                      if negb (Ascii.eqb sep2 ":") then None else
                      match two_digits e f with
                      | None => None
                      | Some ss =>
                          match r3 with
                          | EmptyString => Some (hh, mi, ss, 0)
                          | String dot frac =>
                              if Ascii.eqb dot "." then
                                option_map (fun us => (hh, mi, ss, us)) (parse_fraction frac)
                              else None
                          end
                      end
                  | _ => None
                  end
              end
          | _ => None
          end
      end
  | _ => None
  end.

(** position of the first [+] or [-] *)
Fixpoint find_sign (s : string) : option nat :=
  match s with
  | EmptyString => None
  | String c s' =>
      if Ascii.eqb c "+" || Ascii.eqb c "-" then Some O
      else option_map S (find_sign s')
  end.

(** [_parse_isoformat_time]: the time of day and the optional UTC offset *)
Definition parse_isoformat_time (t : string) : option (Z * Z * Z * Z * option Z) :=
  match find_sign t with
  | None => option_map (fun c => (c, None)) (parse_hh_mm_ss_ff t)
  | Some i =>
      let timestr := take i t in
      let tzstr := drop (S i) t in
      let neg := startswith "-" (drop i t) in
      let n := String.length tzstr in
      if Nat.eqb n 5 || Nat.eqb n 8 || Nat.eqb n 15 then
        match parse_hh_mm_ss_ff timestr, parse_hh_mm_ss_ff tzstr with
        | Some c, Some (oh, om, os, ous) =>
            let off := ((oh * 3600 + om * 60 + os) * 1000000 + ous) in
            Some (c, Some (if neg then - off else off))
        | _, _ => None
        end
      else None
  end.

(** [datetime.fromisoformat(s)]; [None] stands for the exception raised on
    text outside the grammar or on a field out of range. *)
Definition fromisoformat (s : string) : option datetime :=
  match parse_isoformat_date (take 10 s) with
  | None => None
  | Some (y, m, d) =>
      match drop 11 s with
      | EmptyString => make_datetime y m d 0 0 0 0 None
      | t =>
          match parse_isoformat_time t with
          | Some (hh, mi, ss, us, tz) => make_datetime y m d hh mi ss us tz
          | None => None
          end
      end
  end.

(** ** [email.utils.parsedate_to_datetime] *)

Definition _daynames : list string :=
  ["mon"; "tue"; "wed"; "thu"; "fri"; "sat"; "sun"]%string.

Definition _monthnames : list string :=
  ["jan"; "feb"; "mar"; "apr"; "may"; "jun"; "jul"; "aug"; "sep"; "oct"; "nov"; "dec";
   "january"; "february"; "march"; "april"; "may"; "june"; "july"; "august";
   "september"; "october"; "november"; "december"]%string.

Definition _timezones : list (string * Z) :=
  [("UT", 0); ("UTC", 0); ("GMT", 0); ("Z", 0);
   ("AST", -400); ("ADT", -300);
   ("EST", -500); ("EDT", -400);
   ("CST", -600); ("CDT", -500);
   ("MST", -700); ("MDT", -600);
   ("PST", -800); ("PDT", -700)]%string.

Fixpoint assoc {A} (k : string) (l : list (string * A)) : option A :=
  match l with
  | [] => None
  | (k', v) :: l' => if String.eqb k k' then Some v else assoc k l'
  end.

(** strips one trailing comma: [if t[-1] == ',': t = t[:-1]]; [None] when
    [t] is empty (the [IndexError] of [t[-1]]) *)
Definition strip_comma (t : string) : option string :=
  match last_char t with
  | None => None
  | Some c => Some (if Ascii.eqb c "," then drop_last t else t)
  end.

(** the first token: a day name is dropped, otherwise what precedes the
    last comma of the token is cut off *)
Definition skip_dayname (data : list string) : list string :=
  match data with
  | [] => []
  | d0 :: r =>
      if endswith "," d0 || mem (lower d0) _daynames then r
      else match rfind_char "," d0 with
           | Some i => drop (S i) d0 :: r
           | None => data
           end
  end.

(** RFC 850 dates: [dd-mmm-yy] in one token *)
Definition split_rfc850 (data : list string) : list string :=
  match data with
  | [d0; d1; d2] =>
      let stuff := split_char "-" d0 in
      if Nat.eqb (List.length stuff) 3 then stuff ++ [d1; d2] else data
  | _ => data
  end.

(** a time glued to its zone, or no zone at all *)
Definition split_zone (data : list string) : list string :=
  match data with
  | [d0; d1; d2; s] =>
      let i := match find_char "+" s with
               | Some i => Some i
               | None => find_char "-" s
               end in
      match i with
      | Some (S i') => [d0; d1; d2; take (S i') s; drop (S i') s]
      | _ => [d0; d1; d2; s; EmptyString]
      end
  | _ => data
  end.

(** the clock: [hh:mm], [hh:mm:ss], or the same with dots *)
Definition parse_clock (tm : string) : option (Z * Z * Z) :=
  let ints (a b c : string) :=
    match py_int a, py_int b, py_int c with
    | Some x, Some y, Some z => Some (x, y, z)
    | _, _, _ => None
    end in
  match split_char ":" tm with
  | [thh; tmm] => ints thh tmm "0"%string
  | [thh; tmm; tss] => ints thh tmm tss
  | [t0] =>
      if contains "." t0 then
        match split_char "." t0 with
        | [thh; tmm] => ints thh tmm "0"%string
        | [thh; tmm; tss] => ints thh tmm tss
        | _ => None
        end
      else None
  | _ => None
  end.

(** the zone: a name of [_timezones] or a signed [hhmm]; [-0000] and
    unknown names give no offset.  The result is in seconds. *)
Definition parse_zone (tz0 : string) : option Z :=
  let tz := upper tz0 in
  let tzoffset :=
    match assoc tz _timezones with
    | Some o => Some o
    | None => py_int tz
    end in
  let tzoffset :=
    match tzoffset with
    | Some 0 => if startswith "-" tz then None else Some 0
    | o => o
    end in
  match tzoffset with
  | Some o =>
      if o =? 0 then Some 0
      else if o <? 0 then Some (- ((- o / 100) * 3600 + (- o mod 100) * 60))
      else Some ((o / 100) * 3600 + (o mod 100) * 60)
  | None => None
  end.

(** [_parsedate_tz]: year, month, day, hour, minute, second and the offset
    in seconds.  [None] stands both for the [None] of the source and for an
    exception raised on the way: the caller treats them alike. *)
Definition _parsedate_tz (data0 : string) : option (Z * Z * Z * Z * Z * Z * option Z) :=
  if negb (truthy data0) then None else
  let data := split_ws data0 in
  match data with
  | [] => None
  | _ =>
  let data := split_zone (split_rfc850 (skip_dayname data)) in
  match data with
  | dd :: mm :: yy :: tm :: tz :: _ =>
      if negb (truthy dd && truthy mm && truthy yy) then None else
      let mm := lower mm in
      let dd_mm :=
        if mem mm _monthnames then Some (dd, mm)
        else let '(dd, mm) := (mm, lower dd) in
             if mem mm _monthnames then Some (dd, mm) else None in
      match dd_mm with
      | None => None
      | Some (dd, mm) =>
      match index_of mm _monthnames with
      | None => None
      | Some k =>
      let mm := Z.of_nat k + 1 in
      let mm := if 12 <? mm then mm - 12 else mm in
      match strip_comma dd with
      | None => None
      | Some dd =>
      let '(yy, tm) :=
        match find_char ":" yy with
        | Some (S _) => (tm, yy)
        | _ => (yy, tm)
        end in
      match last_char yy with
      | None => None
      | Some c =>
      let yy := if Ascii.eqb c "," then drop_last yy else yy in
      match yy with
      | EmptyString => None
      | String y0 _ =>
      let '(yy, tz) := if negb (is_digit y0) then (tz, yy) else (yy, tz) in
      match strip_comma tm with
      | None => None
      | Some tm =>
      match parse_clock tm, py_int yy, py_int dd with
      | Some (thh, tmm, tss), Some yy, Some dd =>
          let yy := if yy <? 100 then (if 68 <? yy then yy + 1900 else yy + 2000) else yy in
          Some (yy, mm, dd, thh, tmm, tss, parse_zone tz)
      | _, _, _ => None
      end end end end end end end
  | _ => None
  end
  end.

(** [parsedate_to_datetime(s)]; [None] stands for the exception raised on
    what [_parsedate_tz] refuses or on a field out of range. *)
Definition parsedate_to_datetime (s : string) : option datetime :=
  match _parsedate_tz s with
  | None => None
  | Some (yy, mm, dd, thh, tmm, tss, tz) =>
      make_datetime yy mm dd thh tmm tss 0 (option_map (fun o => o * 1000000) tz)
  end.

(** ** Conversion to UTC and [strftime] *)

Definition total_us (d : datetime) : Z :=
  ((ymd2ord (year d) (month d) (day d) * 86400
    + hour d * 3600 + minute d * 60 + second d) * 1000000) + microsecond d.

Definition max_ordinal : Z := 3652059.

(** [d.astimezone(timezone.utc)] for an aware [d] with offset [off];
    [OverflowError] when the result leaves the years 1 to 9999. *)
Definition astimezone_utc (d : datetime) (off : Z) : Result datetime :=
  let t := total_us d - off in
  let ord := t / day_us in
  let r := t mod day_us in
  if in_range 1 max_ordinal ord then
    let '(y, m, dd) := ord2ymd ord in
    let secs := r / 1000000 in
    Ok (mkDT y m dd (secs / 3600) ((secs mod 3600) / 60) (secs mod 60)
             (r mod 1000000) (Some 0))
  else Raise (mkExn OverflowError "date value out of range").

Definition decimal_digits : list ascii :=
  ["0"; "1"; "2"; "3"; "4"; "5"; "6"; "7"; "8"; "9"]%char.

Definition digit_of (k : Z) : ascii :=
  nth (Z.to_nat (k mod 10)) decimal_digits "0"%char.

(** [%d], [%m], [%H], [%M]: two digits, zero padded *)
Definition pad2 (n : Z) : string :=
  String (digit_of (n / 10)) (String (digit_of n) EmptyString).

(** [%Y]: four digits, zero padded *)
Definition pad4 (n : Z) : string :=
  String (digit_of (n / 1000)) (String (digit_of (n / 100))
    (String (digit_of (n / 10)) (String (digit_of n) EmptyString))).

(** [d.strftime("%d/%m/%Y %H:%M")] *)
Definition strftime_dmy_hm (d : datetime) : string :=
  (pad2 (day d) ++ "/" ++ pad2 (month d) ++ "/" ++ pad4 (year d) ++ " "
   ++ pad2 (hour d) ++ ":" ++ pad2 (minute d))%string.

End Dates.

(* ================================================================== *)
(** * Timestamp canonicalisation *)

(** the two parsing attempts of [format_datetime_iso]: ISO first, with
    every [Z] replaced by [+00:00], then RFC 2822 *)
Definition parse_date_str (date_str : string) : option Dates.datetime :=
  match Dates.fromisoformat (replace "Z" "+00:00" date_str) with
  | Some d => Some d
  | None => Dates.parsedate_to_datetime date_str
  end.

(** the conversion to UTC of [format_datetime_iso]: an aware value is
    converted, a naive one is taken to be UTC already *)
Definition to_utc (d : Dates.datetime) : Result Dates.datetime :=
  match Dates.tzoffset d with
  | Some off => Dates.astimezone_utc d off
  | None => Ok (Dates.mkDT (Dates.year d) (Dates.month d) (Dates.day d)
                  (Dates.hour d) (Dates.minute d) (Dates.second d)
                  (Dates.microsecond d) (Some 0%Z))
  end.

(** [format_datetime_iso(date_str, include_gmt)] *)
Definition format_datetime_iso (date_str : string) (include_gmt : bool) : Result string :=
  if negb (truthy date_str) then Ok EmptyString else
  match parse_date_str date_str with
  | None => Ok date_str
  | Some d =>
      d <- to_utc d ;;
      if include_gmt then Ok (Dates.strftime_dmy_hm d ++ " GMT")%string
      else Ok (Dates.strftime_dmy_hm d)
  end.

(* ================================================================== *)
(** * The regular expressions of the source *)

Module Re.
Import Str.

Fixpoint take_while (p : ascii -> bool) (s : string) : string :=
  match s with
  | EmptyString => EmptyString
  | String c s' => if p c then String c (take_while p s') else EmptyString
  end.

(** [s.find(sub)]: [None] stands for [-1] *)
Fixpoint find_sub (sub s : string) : option nat :=
  if startswith sub s then Some O
  else match s with
       | EmptyString => None
       | String _ s' => option_map S (find_sub sub s')
       end.

Definition is_quote (c : ascii) : bool := Ascii.eqb c "'" || Ascii.eqb c "034".
Definition hex_lower (c : ascii) : bool := is_digit c || between 97 102 c.
Definition hex_any (c : ascii) : bool := hex_lower c || between 65 70 c.

(** ** The pattern [url\(Q?(.*?)Q?\)], where [Q] is a single or a double
    quote *)

(** the lazy group followed by an optional quote and the closing
    parenthesis: the group ends at the first [)] or quote-and-[)]; a dot
    does not match a line feed *)
Fixpoint lazy_until_close (s : string) : option string :=
  match s with
  | EmptyString => None
  | String c s' =>
      if is_quote c && startswith ")" s' then Some EmptyString
      else if Ascii.eqb c ")" then Some EmptyString
      else if Ascii.eqb c "010" then None
      else option_map (String c) (lazy_until_close s')
  end.

(** the match that starts right here, if any: group 1 *)
Definition match_url_here (s : string) : option string :=
  if startswith "url(" s then
    let body := drop 4 s in
    let unquoted :=
      match body with
      | String q r => if is_quote q then r else body
      | EmptyString => body
      end in
    match lazy_until_close unquoted with
    | Some g => Some g
    | None => lazy_until_close body
    end
  else None.

(** [re.search] with that pattern: group 1 of the leftmost match *)
Fixpoint search_url (s : string) : option string :=
  match match_url_here s with
  | Some g => Some g
  | None =>
      match s with
      | EmptyString => None
      | String _ s' => search_url s'
      end
  end.

(** ** The colour tokens *)

(** [#[0-9a-f]{3,8}] with the given class of hexadecimal digits *)
Definition m_hex (hex : ascii -> bool) (s : string) : option string :=
  match s with
  | String c r =>
      if Ascii.eqb c "#" then
        let h := take 8 (take_while hex r) in
        if Nat.leb 3 (String.length h) then Some (String c h) else None
      else None
  | EmptyString => None
  end.

(** [name\([^)]+\)] *)
Definition m_call (name : string) (s : string) : option string :=
  if startswith (name ++ "(")%string s then
    let body := drop (String.length name + 1) s in
    let inner := take_while (fun c => negb (Ascii.eqb c ")")) body in
    if truthy inner && startswith ")" (drop (String.length inner) body)
    then Some (name ++ "(" ++ inner ++ ")")%string
    else None
  else None.

(** [name[a]?\([^)]+\)] *)
Definition m_call_a (name : string) (s : string) : option string :=
  match m_call (name ++ "a")%string s with
  | Some t => Some t
  | None => m_call name s
  end.

Definition is_word_opt (c : option ascii) : bool :=
  match c with Some c => is_word c | None => false end.

Definition head_char (s : string) : option ascii :=
  match s with String c _ => Some c | EmptyString => None end.

(** [\b[a-z]+\b]: a maximal run of small letters between word boundaries;
    [prev] is the character before the position *)
Definition m_word (prev : option ascii) (s : string) : option string :=
  let run := take_while is_lower s in
  if truthy run && negb (is_word_opt prev)
     && negb (is_word_opt (head_char (drop (String.length run) s)))
  then Some run else None.

Definition first_some {A} (l : list (option A)) : option A :=
  fold_right (fun o acc => match o with Some _ => o | None => acc end) None l.

(** the alternatives of the colour pattern of the tinycss2 branch, in the
    order of the source *)
Definition color_token (prev : option ascii) (s : string) : option string :=
  first_some [ m_hex hex_lower s; m_call_a "rgb" s; m_call_a "hsl" s;
               m_call "var" s; m_call "linear-gradient" s; m_word prev s ].

(** [re.findall(pattern, value)]: the matches from left to right, none
    overlapping.  [skip] counts the characters of the last match still to
    pass. *)
Fixpoint findall_colors_aux (skip : nat) (prev : option ascii) (s : string) : list string :=
  match s with
  | EmptyString => []
  | String c s' =>
      match skip with
      | S k => findall_colors_aux k (Some c) s'
      | O =>
          match color_token prev s with
          | Some t => t :: findall_colors_aux (String.length t - 1) (Some c) s'
          | None => findall_colors_aux O (Some c) s'
          end
      end
  end.
Definition findall_colors (value : string) : list string :=
  findall_colors_aux O None value.

(** the pattern of the cssutils branch: [#hex], [rgb(...)] or a run of
    letters; [re.search] gives the leftmost match *)
Definition color_token_fallback (s : string) : option string :=
  first_some [ m_hex hex_any s; m_call_a "rgb" s;
               (let run := take_while is_alpha s in
                if truthy run then Some run else None) ].

Fixpoint search_color_fallback (s : string) : option string :=
  match color_token_fallback s with
  | Some t => Some t
  | None =>
      match s with
      | EmptyString => None
      | String _ s' => search_color_fallback s'
      end
  end.

(** [re.sub] of the pattern [/\*.*?\*/] by the empty string, with
    [re.DOTALL]: every comment that is closed is removed *)
Fixpoint remove_comments_aux (skip : nat) (s : string) : string :=
  match s with
  | EmptyString => EmptyString
  | String c s' =>
      match skip with
      | S k => remove_comments_aux k s'
      | O =>
          if startswith "/*" s then
            match find_sub "*/" (drop 2 s) with
            | Some j => remove_comments_aux (j + 3) s'
            | None => String c (remove_comments_aux O s')
            end
          else String c (remove_comments_aux O s')
      end
  end.
Definition remove_comments (css : string) : string := remove_comments_aux O css.

(** [re.sub] of a single or double quote by the empty string *)
Definition remove_quotes (value : string) : string := remove_chars is_quote value.

End Re.

(* ================================================================== *)
(** * Documents: the BeautifulSoup tree *)

Inductive Node : Type :=
| Tag (name : string) (attrs : list (string * string)) (children : list Node)
| NavigableString (text : string)
| Comment (text : string).

(** a parsed document: the children of the root *)
Definition Soup : Type := list Node.

(** [tag.get(key)] *)
Fixpoint attr_get (key : string) (attrs : list (string * string)) : option string :=
  match attrs with
  | [] => None
  | (k, v) :: r => if String.eqb k key then Some v else attr_get key r
  end.

(** [tag.get(key, default)] with the empty string as default *)
Definition attr_get_or_empty (key : string) (attrs : list (string * string)) : string :=
  match attr_get key attrs with Some v => v | None => EmptyString end.

(** [a or b] on two optional attribute values *)
Definition or_attr (a b : option string) : option string :=
  match a with
  | Some v => if truthy v then a else b
  | None => b
  end.

(** Python truthiness of an optional attribute value *)
Definition truthy_opt (a : option string) : bool :=
  match a with Some v => truthy v | None => false end.

(** An element as [find_all] yields it: name, attributes, children. *)
Record Element : Type := mkElement {
  el_name : string;
  el_attrs : list (string * string);
  el_children : list Node
}.

(** all elements of the tree, in document order *)
Fixpoint elements_of (n : Node) : list Element :=
  match n with
  | Tag name attrs children =>
      mkElement name attrs children
      :: (fix go (l : list Node) : list Element :=
            match l with
            | [] => []
            | c :: r => elements_of c ++ go r
            end) children
  | _ => []
  end.

Definition all_elements (soup : Soup) : list Element :=
  flat_map elements_of soup.

(** [soup.find_all(...)] with a test on name and attributes *)
Definition find_all (p : Element -> bool) (soup : Soup) : list Element :=
  filter p (all_elements soup).

(** [soup.find(...)] *)
Definition find (p : Element -> bool) (soup : Soup) : option Element :=
  List.hd_error (find_all p soup).

Definition named (names : list string) (e : Element) : bool := mem (el_name e) names.
Definition has_attr (key : string) (e : Element) : bool :=
  match attr_get key (el_attrs e) with Some _ => true | None => false end.
Definition attr_is (key value : string) (e : Element) : bool :=
  match attr_get key (el_attrs e) with Some v => String.eqb v value | None => false end.

(** [tag.string]: the text of a tag with a single child that is a string,
    or with a single child tag that has one itself *)
Fixpoint node_string (n : Node) : option string :=
  match n with
  | NavigableString t => Some t
  | Comment t => Some t
  | Tag _ _ [c] => node_string c
  | Tag _ _ _ => None
  end.

Definition el_string (e : Element) : option string :=
  match el_children e with
  | [c] => node_string c
  | _ => None
  end.

(** [element.decompose()] for every element with one of the names, and
    [c.extract()] for every comment: the tree without them *)
Fixpoint prune (names : list string) (n : Node) : list Node :=
  match n with
  | Tag name attrs children =>
      if mem name names then []
      else [Tag name attrs
              ((fix go (l : list Node) : list Node :=
                  match l with
                  | [] => []
                  | c :: r => prune names c ++ go r
                  end) children)]
  | NavigableString t => [n]
  | Comment _ => []
  end.

(** the strings of [get_text], in document order *)
Fixpoint strings_of (n : Node) : list string :=
  match n with
  | Tag _ _ children =>
      (fix go (l : list Node) : list string :=
         match l with
         | [] => []
         | c :: r => strings_of c ++ go r
         end) children
  | NavigableString t => [t]
  | Comment _ => []
  end.

(** [soup.get_text(separator="\n")] *)
Definition get_text (soup : Soup) : string :=
  join (String "010" EmptyString) (flat_map strings_of soup).

(** the line boundaries of [str.splitlines] below code 128 *)
Definition is_linebreak (c : ascii) : bool :=
  between 10 13 c || between 28 30 c.

(** [text.splitlines()] up to empty lines: the text is cut at every line
    boundary, so that a CR LF pair leaves an empty piece between its two
    characters.  The only caller drops the empty pieces. *)
Fixpoint splitlines (s : string) : list string :=
  match s with
  | EmptyString => [EmptyString]
  | String d s' =>
      if is_linebreak d then EmptyString :: splitlines s'
      else match splitlines s' with
           | [] => [String d EmptyString]
           | w :: ws => String d w :: ws
           end
  end.

Definition chrome_tags : list string :=
  ["script"; "style"; "noscript"; "iframe"; "svg"; "canvas"; "header"; "footer"; "nav"].

(** [visible_text_from_soup(soup)]: the text, and the tree as the call
    leaves it.  The source prunes the caller's tree in place, so every later
    extractor of [process_url] sees the pruned tree. *)
Definition visible_text_from_soup (soup : Soup) : string * Soup :=
  let soup' := flat_map (prune chrome_tags) soup in
  let text := get_text soup' in
  let lines := filter truthy (map strip (splitlines text)) in
  (join (String "010" EmptyString) lines, soup').

(** [extract_title(soup)] *)
Definition extract_title (soup : Soup) : string :=
  let from_og :=
    match find (fun e => named ["meta"] e && attr_is "property" "og:title" e) soup with
    | Some og =>
        match attr_get "content" (el_attrs og) with
        | Some c => if truthy c then strip c else EmptyString
        | None => EmptyString
        end
    | None => EmptyString
    end in
  match find (named ["title"]) soup with
  | Some t =>
      match el_string t with
      | Some str => if truthy str then strip str else from_og
      | None => from_og
      end
  | None => from_og
  end.

(** [extract_meta(soup, name)] *)
Definition extract_meta (soup : Soup) (name : string) : string :=
  let content_of (e : Element) := attr_get "content" (el_attrs e) in
  let exact :=
    match find (fun e => named ["meta"] e && attr_is "name" name e) soup with
    | Some tag => if truthy_opt (content_of tag) then content_of tag else None
    | None => None
    end in
  match exact with
  | Some c => strip c
  | None =>
      let ci (m : Element) :=
        match attr_get "name" (el_attrs m) with
        | Some n => truthy n && String.eqb (lower n) (lower name) && truthy_opt (content_of m)
        | None => false
        end in
      match List.hd_error (filter ci (find_all (named ["meta"]) soup)) with
      | Some m => strip (attr_get_or_empty "content" (el_attrs m))
      | None => EmptyString
      end
  end.

(** [list(dict.fromkeys(l))]: the first occurrence of every entry, in the
    order of the list *)
Fixpoint fromkeys_aux (seen : list string) (l : list string) : list string :=
  match l with
  | [] => []
  | x :: r => if mem x seen then fromkeys_aux seen r else x :: fromkeys_aux (x :: seen) r
  end.
Definition fromkeys (l : list string) : list string := fromkeys_aux [] l.

(* ================================================================== *)
(** * The world the scraper runs in *)

(** a JSON value, as [r.json()] returns it *)
Inductive Json : Type :=
| JNull
| JBool (b : bool)
| JNum (z : Z)
| JStr (s : string)
| JArr (l : list Json)
| JObj (fields : list (string * Json)).

Record Response : Type := mkResponse {
  status_code : Z;
  text : string;
  headers : list (string * string);
  json : Result Json
}.

(** what tinycss2 makes of a declaration list and of a stylesheet; the
    value of a declaration is [tinycss2.serialize(decl.value)] *)
Inductive CssItem : Type :=
| Declaration (lower_name : option string) (value : string)
| OtherItem.

Inductive CssRule : Type :=
| QualifiedRule (content : Result (list CssItem))
| OtherRule.

(** what cssutils makes of a stylesheet: the properties of a style rule *)
Inductive CssutilsRule : Type :=
| StyleRule (properties : list (string * string))
| OtherCssutilsRule.

Record World : Type := mkWorld {
  (** [rp.set_url(robots_url); rp.read(); rp.can_fetch(user_agent, url)] *)
  robots_can_fetch : string -> string -> string -> Result bool;
  (** [session.get(url, ...)] *)
  session_get : string -> Result Response;
  (** [requests.get(url, timeout=10)] and [requests.head(url, timeout=10)] *)
  requests_get : string -> Result Response;
  requests_head : string -> Result Response;
  (** [BeautifulSoup(html, "lxml")] *)
  BeautifulSoup : string -> Soup;
  (** [urljoin(base, url)] *)
  urljoin : string -> string -> string;
  (** [detect_langs(text)]: languages with their probabilities *)
  detect_langs : string -> Result (list (string * Q));
  (** [tinycss2.parse_stylesheet] with [parse_declaration_list] per rule *)
  tinycss2_parse : string -> Result (list CssRule);
  (** [cssutils.parseString] *)
  cssutils_parse : string -> Result (list CssutilsRule);
  (** the size PIL reports for the image at a URL, after [session.get] and
      [raise_for_status] *)
  probe_image_size : string -> Result (Z * Z);
  (** [list(s)] for a set [s] whose distinct entries were added in the given
      order: the iteration order depends on the hash seed of the process *)
  set_iter : list string -> list string;
  set_iter_perm : forall l, NoDup l -> Permutation (set_iter l) l
}.

Definition USER_AGENT : string := "IndieScraper/1.0 (+https://example.com)".

(** case-insensitive lookup in the headers of a response *)
Fixpoint header_get (key : string) (hs : list (string * string)) : option string :=
  match hs with
  | [] => None
  | (k, v) :: r => if String.eqb (lower k) (lower key) then Some v else header_get key r
  end.

(** [can_fetch_url(url)]: a failure to read robots.txt allows the fetch *)
Definition can_fetch_url (W : World) (url : string) : Result bool :=
  parsed <- Url.urlparse url ;;
  let robots_url := (Url.scheme parsed ++ "://" ++ Url.netloc parsed ++ "/robots.txt")%string in
  Ok (try_or (robots_can_fetch W robots_url USER_AGENT url) true).

(** [get_root_url(url)] *)
Definition get_root_url (url : string) : Result string :=
  p <- Url.urlparse url ;;
  Ok (Url.scheme p ++ "://" ++ Url.netloc p)%string.

(** [r.raise_for_status()] *)
Definition raise_for_status (r : Response) : Result unit :=
  if ((400 <=? status_code r) && (status_code r <? 600))%Z
  then Raise (mkExn HTTPError "HTTP error status")
  else Ok tt.

(** [fetch_url(url, session)] *)
Definition fetch_url (W : World) (url : string) : Result Response :=
  r <- session_get W url ;;
  _ <- raise_for_status r ;;
  Ok r.

(* ================================================================== *)
(** * Language detection *)

Definition borrowed_words : list string :=
  ["home"; "about"; "contact"; "portfolio"; "index"; "welcome";
   "update"; "blog"; "link"; "back"; "gallery"; "by"; "from";
   "guestbook"; "shoutbook"; "pet"; "webring"; "webpage"; "post";
   "webmaster"].

(** [langs_detected.sort(key=lambda x: x[1], reverse=True)]: a stable sort
    by descending probability; entries of equal probability keep their
    order *)
Fixpoint insert_desc (x : string * Q) (l : list (string * Q)) : list (string * Q) :=
  match l with
  | [] => [x]
  | y :: r => if Qle_bool (snd y) (snd x) then x :: l else y :: insert_desc x r
  end.
Definition sort_desc (l : list (string * Q)) : list (string * Q) :=
  fold_right insert_desc [] l.

(** [p > q] on probabilities *)
Definition Qgt_bool (p q : Q) : bool := negb (Qle_bool p q).

Definition LanguageProfile : Type := (string * Q * string * bool)%type.

Definition empty_profile : LanguageProfile := (EmptyString, 0%Q, EmptyString, false).

(** [detect_language_profile(text)] *)
Definition detect_language_profile (W : World) (text : string) : Result LanguageProfile :=
  if negb (truthy text) || Nat.ltb (String.length text) 50 then Ok empty_profile else
  let text := take 8000 text in
  let text_lower := lower text in
  let text_lower :=
    fold_left (fun t w => replace (" " ++ w ++ " ")%string " " t) borrowed_words text_lower in
  match detect_langs W text_lower with
  | Raise e =>
      if eqb_cls (exn_cls e) LangDetectException then Ok empty_profile else Raise e
  | Ok lang_probs =>
      let langs_detected := sort_desc lang_probs in
      match langs_detected with
      | [] => Raise (mkExn IndexError "list index out of range")
      | (primary_lang, confidence) :: _ =>
          let all_langs :=
            join " | " (map fst (filter (fun lp => Qgt_bool (snd lp) (5 # 100)) langs_detected)) in
          let is_multilingual :=
            Nat.ltb 1 (List.length (filter (fun lp => Qgt_bool (snd lp) (15 # 100)) langs_detected)) in
          let primary_lang :=
            if mem primary_lang ["sw"; "pt"; "no"; "ca"]
               && contains_any [" de "; " la "; " el "; " que "; " los "] text_lower
            then "es" else primary_lang in
          let primary_lang :=
            if negb (mem primary_lang ["es"; "en"])
               && contains_any [" the "; " and "; " to "; " of "] text_lower
            then "en" else primary_lang in
          Ok (primary_lang, confidence, all_langs, is_multilingual)
      end
  end.

(** [round(q, 3)]: to the nearest thousandth, ties to even *)
Definition round3 (q : Q) : Q :=
  let x := (q * 1000)%Q in
  let f := Qfloor x in
  let r := (x - inject_Z f)%Q in
  let n :=
    if Qle_bool r (1 # 2)
    then (if Qle_bool (1 # 2) r then (if Z.even f then f else f + 1)%Z else f)
    else (f + 1)%Z in
  (n # 1000).

(* ================================================================== *)
(** * Creation and update dates, tags *)

(** [js.get(key)] on a JSON object; anything else has no [get] *)
Definition json_get (key : string) (js : Json) : Result (option Json) :=
  match js with
  | JObj fields => Ok (Dates.assoc key fields)
  | _ => Raise (mkExn OtherException "object has no attribute 'get'")
  end.

(** [js[key]] *)
Definition json_index (key : string) (js : Json) : Result Json :=
  match js with
  | JObj fields =>
      match Dates.assoc key fields with
      | Some v => Ok v
      | None => Raise (mkExn KeyError key)
      end
  | _ => Raise (mkExn TypeError "indices must be integers")
  end.

(** the host of the URL, lowered *)
Definition host_of (url : string) : Result string :=
  p <- Url.urlparse url ;; Ok (lower (Url.netloc p)).

(** the body of the [try] of the Neocities branches: the field of the
    site's [info], when the API answers with success *)
Definition neocities_info (W : World) (host field : string) (default : Json)
  : Result (option Json) :=
  let sitename := List.hd EmptyString (split_char "." host) in
  let api_url := ("https://neocities.org/api/info?sitename=" ++ sitename)%string in
  r <- requests_get W api_url ;;
  js <- json r ;;
  res <- json_get "result" js ;;
  match res with
  | Some (JStr "success") =>
      info <- json_index "info" js ;;
      v <- json_get field info ;;
      Ok (Some (match v with Some v => v | None => default end))
  | _ => Ok None
  end.

(** the date the Neocities branch returns, if it returns: the field must be
    a non-empty string that [format_datetime_iso] formats without raising;
    every exception inside the [try] is passed over *)
Definition neocities_date (W : World) (host field : string) : option string :=
  match neocities_info W host field (JStr EmptyString) with
  | Ok (Some (JStr raw)) =>
      if truthy raw then
        match format_datetime_iso raw true with
        | Ok s => Some s
        | Raise _ => None
        end
      else None
  | _ => None
  end.

(** the metadata fallback: the first candidate tag that is present and has
    a non-empty [content] or [datetime] decides *)
Fixpoint first_meta_date (cands : list (Element -> bool)) (soup : Soup)
  : Result (option string) :=
  match cands with
  | [] => Ok None
  | p :: r =>
      match find p soup with
      | Some t =>
          let content :=
            or_attr (attr_get "content" (el_attrs t)) (attr_get "datetime" (el_attrs t)) in
          if truthy_opt content
          then
            s <- format_datetime_iso (match content with Some c => c | None => EmptyString end) true ;;
            Ok (Some s)
          else first_meta_date r soup
      | None => first_meta_date r soup
      end
  end.

Definition creation_candidates : list (Element -> bool) :=
  [ (fun e => named ["meta"] e && attr_is "name" "date" e);
    (fun e => named ["meta"] e && attr_is "property" "article:published_time" e);
    (fun e => named ["meta"] e && attr_is "property" "og:published_time" e);
    (fun e => named ["meta"] e && attr_is "itemprop" "dateCreated" e);
    (fun e => named ["time"] e && has_attr "datetime" e) ].

Definition update_candidates : list (Element -> bool) :=
  [ (fun e => named ["meta"] e && attr_is "property" "article:modified_time" e);
    (fun e => named ["meta"] e && attr_is "property" "og:updated_time" e);
    (fun e => named ["meta"] e && attr_is "itemprop" "dateModified" e);
    (fun e => named ["meta"] e && attr_is "name" "last-modified" e);
    (fun e => named ["time"] e && attr_is "itemprop" "dateModified" e) ].

(** [get_creation_date(url, soup)] *)
Definition get_creation_date (W : World) (url : string) (soup : Soup) : Result string :=
  host <- host_of url ;;
  let from_api :=
    if contains "neocities.org" host then neocities_date W host "created_at" else None in
  match from_api with
  | Some s => Ok s
  | None =>
      m <- first_meta_date creation_candidates soup ;;
      match m with
      | Some s => Ok s
      | None => Ok EmptyString
      end
  end.

(** [get_last_update_date(url, soup)] *)
Definition get_last_update_date (W : World) (url : string) (soup : Soup) : Result string :=
  host <- host_of url ;;
  let from_api :=
    if contains "neocities.org" host then neocities_date W host "last_updated" else None in
  match from_api with
  | Some s => Ok s
  | None =>
      m <- first_meta_date update_candidates soup ;;
      match m with
      | Some s => Ok s
      | None =>
          (* the body of the last [try]: the HEAD request *)
          let from_head :=
            r <- requests_head W url ;;
            match header_get "Last-Modified" (headers r) with
            | Some v => s <- format_datetime_iso v true ;; Ok (Some s)
            | None => Ok None
            end in
          match from_head with
          | Ok (Some s) => Ok s
          | _ => Ok EmptyString
          end
      end
  end.

(** [get_neocities_tags(url)] *)
Definition get_neocities_tags (W : World) (url : string) : Result Json :=
  host <- host_of url ;;
  if negb (contains "neocities.org" host) then Ok (JArr []) else
  match neocities_info W host "tags" (JArr []) with
  | Ok (Some tags) => Ok tags
  | _ => Ok (JArr [])
  end.

(* ================================================================== *)
(** * Media: GIFs, buttons, blinkies, sounds *)

(** [requests.Session]; the optional argument [session=None] is an
    [option] *)
Definition Session : Type := unit.

(** the list [gifs] of [find_gifs] when its loop ends *)
Definition gifs_seen (W : World) (soup : Soup) (base_url : string) : list string :=
  let step (gifs : list string) (img : Element) :=
    let src := attr_get_or_empty "src" (el_attrs img) in
    if negb (truthy src) then gifs else
    let full := urljoin W base_url src in
    if endswith ".gif" (lower full) || contains ".gif" (lower full)
    then gifs ++ [full] else gifs in
  fold_left step (find_all (named ["img"]) soup) [].

(** [find_gifs(soup, base_url)] *)
Definition find_gifs (W : World) (soup : Soup) (base_url : string) : list string :=
  fromkeys (gifs_seen W soup base_url).

Record Media : Type := mkMedia {
  buttons_acc : list string;
  blinkies_acc : list string;
  checked_urls : list string
}.

Definition add_button (url : string) (m : Media) : Media :=
  mkMedia (buttons_acc m ++ [url]) (blinkies_acc m) (checked_urls m).
Definition add_blinkie (url : string) (m : Media) : Media :=
  mkMedia (buttons_acc m) (blinkies_acc m ++ [url]) (checked_urls m).
Definition add_checked (url : string) (m : Media) : Media :=
  mkMedia (buttons_acc m) (blinkies_acc m) (url :: checked_urls m).

Definition is_blinkie_size (w h : Z) : bool :=
  ((120 <=? w) && (w <=? 160) && (18 <=? h) && (h <=? 25))%Z.
Definition is_button_size (w h : Z) : bool :=
  ((70 <=? w) && (w <=? 100) && (12 <=? h) && (h <=? 35))%Z.

(** [classify_by_size(w, h, url)]; the arguments are what [int(w)] and
    [int(h)] give, [None] when the conversion raises *)
Definition classify_by_size (w h : option Z) (url : string) (m : Media) : Media :=
  match w, h with
  | Some w, Some h =>
      if is_blinkie_size w h then add_blinkie url m
      else if is_button_size w h then add_button url m
      else m
  | _, _ => m
  end.

Definition button_tokens : list string := ["button"; "badge"; "btn"; "88x31"; "80x15"].
Definition blinkie_tokens : list string := ["blink"; "blinkie"; "150x20"].
Definition raster_suffixes : list string := [".gif"; ".png"; ".jpg"; ".jpeg"].

Definition opt_int (a : option string) : option Z :=
  match a with Some v => Dates.py_int v | None => None end.

(** one turn of the loop over the [<img>] tags *)
Definition img_step (W : World) (base_url : string) (session : option Session)
  (m : Media) (img : Element) : Media :=
  let src := attr_get_or_empty "src" (el_attrs img) in
  if negb (truthy src) then m else
  let full := urljoin W base_url src in
  if mem full (checked_urls m) then m else
  let m := add_checked full m in
  let w := or_attr (attr_get "width" (el_attrs img)) (attr_get "data-width" (el_attrs img)) in
  let h := or_attr (attr_get "height" (el_attrs img)) (attr_get "data-height" (el_attrs img)) in
  if truthy_opt w && truthy_opt h then classify_by_size (opt_int w) (opt_int h) full m else
  let m :=
    match session with
    | Some _ =>
        if existsb (fun suf => endswith suf (lower full)) raster_suffixes then
          match probe_image_size W full with
          | Ok (pw, ph) => classify_by_size (Some pw) (Some ph) full m
          | Raise _ => m
          end
        else m
    | None => m
    end in
  let filename := lower (basename src) in
  if contains_any button_tokens filename then add_button full m
  else if contains_any blinkie_tokens filename then add_blinkie full m
  else m.

(** one turn of the loop over the tags with an inline style *)
Definition style_step (W : World) (base_url : string) (m : Media) (tag : Element) : Media :=
  let s := lower (attr_get_or_empty "style" (el_attrs tag)) in
  if contains "background" s && (contains "button" s || contains "badge" s || contains "blink" s)
  then
    match Re.search_url s with
    | Some g =>
        let url_img := urljoin W base_url g in
        if contains "blink" s || contains "150x20" s then add_blinkie url_img m
        else add_button url_img m
    | None => m
    end
  else m.

(** the lists [buttons] and [blinkies] when the two loops have ended *)
Definition media_seen (W : World) (soup : Soup) (base_url : string)
  (session : option Session) : Media :=
  let m := fold_left (img_step W base_url session) (find_all (named ["img"]) soup)
                     (mkMedia [] [] []) in
  fold_left (style_step W base_url) (find_all (has_attr "style") soup) m.

(** [find_buttons_and_blinkies(soup, base_url, session)] *)
Definition find_buttons_and_blinkies (W : World) (soup : Soup) (base_url : string)
  (session : option Session) : list string * list string :=
  let m := media_seen W soup base_url session in
  (fromkeys (buttons_acc m), fromkeys (blinkies_acc m)).

(** the list [sounds] of [find_sounds] when its loop ends *)
Definition sounds_seen (W : World) (soup : Soup) (base_url : string) : list string :=
  let step (sounds : list string) (tag : Element) :=
    let a := el_attrs tag in
    let src := or_attr (or_attr (attr_get "src" a) (attr_get "data" a)) (attr_get "value" a) in
    let sounds :=
      match src with
      | Some v => if truthy v then sounds ++ [urljoin W base_url v] else sounds
      | None => sounds
      end in
    if String.eqb (el_name tag) "audio" then
      fold_left
        (fun acc (s : Element) =>
           match attr_get "src" (el_attrs s) with
           | Some v => if truthy v then acc ++ [urljoin W base_url v] else acc
           | None => acc
           end)
        (filter (named ["source"]) (flat_map elements_of (el_children tag)))
        sounds
    else sounds in
  fold_left step (find_all (named ["audio"; "embed"; "bgsound"; "object"; "source"]) soup) [].

(** [find_sounds(soup, base_url)] *)
Definition find_sounds (W : World) (soup : Soup) (base_url : string) : list string :=
  fromkeys (sounds_seen W soup base_url).

(* ================================================================== *)
(** * Styles *)

(** a Python [set] of strings while it is filled: its distinct entries, in
    the order they were added *)
Definition set_add (x : string) (s : list string) : list string :=
  if mem x s then s else s ++ [x].

Record CssAcc : Type := mkCss {
  colors : list string;
  fonts : list string;
  cursors : list string;
  has_gradients : bool
}.

Definition css_empty : CssAcc := mkCss [] [] [] false.

(** a declaration of the tinycss2 branch *)
Definition decl_step (acc : CssAcc) (item : CssItem) : CssAcc :=
  match item with
  | OtherItem => acc
  | Declaration lower_name raw_value =>
      let name := match lower_name with Some n => n | None => EmptyString end in
      let value := lower (strip raw_value) in
      let acc :=
        if contains_any ["background"; "color"; "border"] name then
          mkCss (fold_left (fun cs c => set_add (strip c) cs) (Re.findall_colors value) (colors acc))
                (fonts acc) (cursors acc)
                (has_gradients acc || contains "gradient(" value)
        else acc in
      let acc :=
        if contains "font-family" name || String.eqb name "font" then
          mkCss (colors acc) (set_add (strip (Re.remove_quotes value)) (fonts acc))
                (cursors acc) (has_gradients acc)
        else acc in
      if contains "cursor" name && contains "url(" value then
        match Re.search_url value with
        | Some g => mkCss (colors acc) (fonts acc) (set_add (strip g) (cursors acc))
                          (has_gradients acc)
        | None => acc
        end
      else acc
  end.

(** the loop over the rules of the tinycss2 branch: the accumulators, and
    whether an exception ended the loop *)
Fixpoint tinycss2_loop (rules : list CssRule) (acc : CssAcc) : CssAcc * bool :=
  match rules with
  | [] => (acc, false)
  | OtherRule :: r => tinycss2_loop r acc
  | QualifiedRule (Raise _) :: _ => (acc, true)
  | QualifiedRule (Ok decls) :: r => tinycss2_loop r (fold_left decl_step decls acc)
  end.

(** a property of the cssutils branch *)
Definition property_step (acc : CssAcc) (p : string * string) : CssAcc :=
  let name := lower (fst p) in
  let val := snd p in
  let acc :=
    if mem name ["background"; "background-color"; "background-image"] then
      mkCss (match Re.search_color_fallback val with
             | Some c => set_add c (colors acc)
             | None => colors acc
             end)
            (fonts acc) (cursors acc)
            (has_gradients acc || contains "gradient(" val)
    else acc in
  let acc :=
    if mem name ["font-family"; "font"] then
      mkCss (colors acc) (set_add val (fonts acc)) (cursors acc) (has_gradients acc)
    else acc in
  if contains "cursor" name || contains "cursor:" val then
    mkCss (colors acc) (fonts acc) (set_add val (cursors acc)) (has_gradients acc)
  else acc.

Definition cssutils_loop (sheet : list CssutilsRule) (acc : CssAcc) : CssAcc :=
  fold_left
    (fun acc rule =>
       match rule with
       | StyleRule props => fold_left property_step props acc
       | OtherCssutilsRule => acc
       end)
    sheet acc.

(** the three sets and the flag of [parse_css_for_properties_combined]
    before its [return]: the tinycss2 branch, and the cssutils branch when
    the first raised; what the first had collected by then stays *)
Definition css_seen (W : World) (css_text : string) : Result CssAcc :=
  let css_text := Re.remove_comments css_text in
  let fallback (acc : CssAcc) : Result CssAcc :=
    sheet <- cssutils_parse W css_text ;;
    Ok (cssutils_loop sheet acc) in
  match tinycss2_parse W css_text with
  | Raise _ => fallback css_empty
  | Ok rules =>
      let '(acc, raised) := tinycss2_loop rules css_empty in
      if raised then fallback acc else Ok acc
  end.

(** [parse_css_for_properties_combined(css_text)]: colours, fonts, cursors
    as [list(set)] gives them, and the gradient flag *)
Definition parse_css_for_properties_combined (W : World) (css_text : string)
  : Result (list string * list string * list string * bool) :=
  acc <- css_seen W css_text ;;
  Ok (set_iter W (colors acc), set_iter W (fonts acc), set_iter W (cursors acc),
      has_gradients acc).

Definition font_keywords : list string :=
  ["comic"; "courier"; "times"; "arial"; "verdana"; "georgia"; "monospace"; "serif"; "sans-serif"].

(** [detect_font_family(font_list)] *)
Definition detect_font_family (font_list : list string) : string :=
  match font_list with
  | [] => EmptyString
  | f0 :: _ =>
      let joined := lower (join " " font_list) in
      match List.find (fun k => contains k joined) font_keywords with
      | Some k => k
      | None =>
          strip_by Re.is_quote (strip (List.hd EmptyString (split_char "," f0)))
      end
  end.

Definition REQUEST_TIMEOUT : Z := 15.

(** the texts of the linked stylesheets that could be fetched *)
Definition linked_css (W : World) (soup : Soup) (base_url : string) : list string :=
  let is_stylesheet (e : Element) :=
    named ["link"] e &&
    match attr_get "rel" (el_attrs e) with
    | Some x => truthy x && contains "stylesheet" (lower x)
    | None => false
    end in
  flat_map
    (fun link =>
       match attr_get "href" (el_attrs link) with
       | Some href =>
           if truthy href then
             match session_get W (urljoin W base_url href) with
             | Ok r =>
                 if (status_code r =? 200)%Z
                    && contains "text/css"
                         (match header_get "Content-Type" (headers r) with
                          | Some v => v | None => EmptyString end)
                 then [text r] else []
             | Raise _ => []
             end
           else []
       | None => []
       end)
    (find_all is_stylesheet soup).

(** the combined CSS text of [extract_basic_styles] *)
Definition css_all_of (W : World) (soup : Soup) (base_url : string) : string :=
  let inline := map (fun tag => attr_get_or_empty "style" (el_attrs tag))
                    (find_all (has_attr "style") soup) in
  let blocks :=
    flat_map (fun style_tag =>
                match el_string style_tag with
                | Some t => if truthy t then [t] else []
                | None => []
                end)
             (find_all (named ["style"]) soup) in
  join (String "010" EmptyString) (inline ++ blocks ++ linked_css W soup base_url).

Record Styles : Type := mkStyles {
  st_bg_colors : list string;
  st_font_family : string;
  st_cursor_custom : bool;
  st_fonts : list string;
  st_cursors : list string;
  st_has_gradients : bool
}.

(** [extract_basic_styles(soup, base_url, session)] *)
Definition extract_basic_styles (W : World) (soup : Soup) (base_url : string) : Result Styles :=
  let css_all := css_all_of W soup base_url in
  r <- parse_css_for_properties_combined W css_all ;;
  let '(bg_colors, fonts, cursors, has_gradients) := r in
  let font_family := detect_font_family fonts in
  let cursor_custom := Nat.ltb 0 (List.length cursors) || contains "cursor:" css_all in
  Ok (mkStyles bg_colors font_family cursor_custom fonts cursors has_gradients).

Local Close Scope result_scope.

(* ================================================================== *)
(** * The record of a URL and its assembly *)

(** the values of the result dictionary *)
Inductive Value : Type :=
| VStr (s : string)
| VBool (b : bool)
| VFloat (q : Q)
| VList (l : list string)
| VJson (j : Json).

(** a Python [dict] with string keys: the entries in insertion order *)
Definition Dict : Type := list (string * Value).

Fixpoint dict_get (k : string) (d : Dict) : option Value :=
  match d with
  | [] => None
  | (k', v) :: r => if String.eqb k k' then Some v else dict_get k r
  end.

(** [d[k] = v]: the value of a present key is replaced in place, a new key
    goes to the end *)
Fixpoint dict_set (k : string) (v : Value) (d : Dict) : Dict :=
  match d with
  | [] => [(k, v)]
  | (k', v') :: r => if String.eqb k k' then (k, v) :: r else (k', v') :: dict_set k v r
  end.

(** the dictionary [process_url] starts from *)
Definition initial_result (url : string) : Dict :=
  [ ("url", VStr url);
    ("title", VStr EmptyString);
    ("meta_description", VStr EmptyString);
    ("keywords", VStr EmptyString);
    ("language", VStr EmptyString);
    ("language_confidence", VFloat 0%Q);
    ("languages_detected", VStr EmptyString);
    ("multilingual", VBool false);
    ("background_colors", VList []);
    ("font_family", VStr EmptyString);
    ("font_list", VList []);
    ("cursor_custom", VBool false);
    ("cursor_links", VList []);
    ("has_gif", VBool false);
    ("gifs", VList []);
    ("has_buttons", VBool false);
    ("buttons", VList []);
    ("has_blinkies", VBool false);
    ("blinkies", VList []);
    ("has_sounds", VBool false);
    ("sounds", VList []);
    ("visible_text", VStr EmptyString);
    ("error", VStr EmptyString);
    ("tags_api", VList []);
    ("tag", VStr EmptyString);
    ("created_at", VStr EmptyString);
    ("last_updated", VStr EmptyString);
    ("platform", VStr EmptyString) ].

(** ** Computations with a state that may raise

    The state survives an exception: what a [try] block has written before
    it raised is still there in the handler. *)

Definition M (S A : Type) : Type := S -> Result A * S.

Definition ret {S A} (a : A) : M S A := fun s => (Ok a, s).

Definition bind {S A B} (m : M S A) (k : A -> M S B) : M S B :=
  fun s =>
    match m s with
    | (Ok a, s') => k a s'
    | (Raise e, s') => (Raise e, s')
    end.

(** a call that may raise and leaves the state alone *)
Definition lift {S A} (r : Result A) : M S A := fun s => (r, s).

(** [try: body  except Exception as e: handler(e)] *)
Definition try_except {S A} (body : M S A) (handler : exn -> M S A) : M S A :=
  fun s =>
    match body s with
    | (Ok a, s') => (Ok a, s')
    | (Raise e, s') => handler e s'
    end.

Declare Scope m_scope.
Delimit Scope m_scope with M.
Notation "x <- e ;; k" := (bind e (fun x => k))
  (at level 61, e at next level, right associativity) : m_scope.
Notation "e ;;; k" := (bind e (fun _ => k))
  (at level 61, right associativity) : m_scope.

(** the state of [process_url]: its [result] dictionary and the log of the
    calls of [fetch_url] *)
Record PState : Type := mkPState { result : Dict; fetch_log : list string }.

(** [result[k] = v] *)
Definition set_key (k : string) (v : Value) : M PState unit :=
  fun s => (Ok tt, mkPState (dict_set k v (result s)) (fetch_log s)).

(** [fetch_url(url, session)], logged *)
Definition do_fetch (W : World) (url : string) : M PState Response :=
  fun s => (fetch_url W url, mkPState (result s) (fetch_log s ++ [url])).

Definition nonempty (l : list string) : bool := Nat.ltb 0 (List.length l).

Local Open Scope m_scope.

(** the statements of [process_url] after the robots.txt check *)
Definition extract_all (W : World) (url : string) (session : Session) : M PState unit :=
  r <- do_fetch W url ;;
  base <- lift (get_root_url url) ;;
  let soup := BeautifulSoup W (text r) in
  set_key "title" (VStr (extract_title soup)) ;;;
  set_key "meta_description" (VStr (extract_meta soup "description")) ;;;
  set_key "keywords" (VStr (extract_meta soup "keywords")) ;;;
  let '(txt, soup) := visible_text_from_soup soup in
  set_key "visible_text" (VStr (take 20000 txt)) ;;;
  profile <- lift (detect_language_profile W txt) ;;
  let '(primary_lang, confidence, all_langs, is_multi) := profile in
  set_key "language" (VStr primary_lang) ;;;
  set_key "language_confidence" (VFloat (round3 confidence)) ;;;
  set_key "languages_detected" (VStr all_langs) ;;;
  set_key "multilingual" (VBool is_multi) ;;;
  created <- lift (get_creation_date W url soup) ;;
  set_key "created_at" (VStr created) ;;;
  updated <- lift (get_last_update_date W url soup) ;;
  set_key "last_updated" (VStr updated) ;;;
  platform <- lift (detect_platform url (text r)) ;;
  set_key "platform" (VStr platform) ;;;
  tags <- lift (get_neocities_tags W url) ;;
  set_key "tags_api" (VJson tags) ;;;
  let gifs := find_gifs W soup base in
  set_key "gifs" (VList gifs) ;;;
  set_key "has_gif" (VBool (nonempty gifs)) ;;;
  let '(buttons, blinkies) := find_buttons_and_blinkies W soup base (Some session) in
  set_key "buttons" (VList buttons) ;;;
  set_key "has_buttons" (VBool (nonempty buttons)) ;;;
  set_key "blinkies" (VList blinkies) ;;;
  set_key "has_blinkies" (VBool (nonempty blinkies)) ;;;
  let sounds := find_sounds W soup base in
  set_key "sounds" (VList sounds) ;;;
  set_key "has_sounds" (VBool (nonempty sounds)) ;;;
  styles <- lift (extract_basic_styles W soup base) ;;
  set_key "background_colors" (VList (st_bg_colors styles)) ;;;
  set_key "font_family" (VStr (st_font_family styles)) ;;;
  set_key "font_list" (VList (st_fonts styles)) ;;;
  set_key "cursor_custom" (VBool (st_cursor_custom styles)) ;;;
  set_key "cursor_links" (VList (st_cursors styles)) ;;;
  set_key "has_gradients" (VBool (st_has_gradients styles)).

(** the body of the [try] of [process_url] *)
Definition process_url_try (W : World) (url : string) (session : Session) : M PState unit :=
  allowed <- lift (can_fetch_url W url) ;;
  if negb allowed then set_key "error" (VStr "Blocked by robots.txt")
  else extract_all W url session.

(** [process_url(url, session)], from a log of earlier fetches: the
    dictionary it returns, and the log *)
Definition process_url (W : World) (url : string) (session : Session)
  : M (list string) Dict :=
  fun log =>
    let run :=
      try_except (process_url_try W url session)
                 (fun e => set_key "error" (VStr (str_of_exn e))) in
    match run (mkPState (initial_result url) log) with
    | (Ok _, s) => (Ok (result s), fetch_log s)
    | (Raise e, s) => (Raise e, fetch_log s)
    end.

(** a line of the input file: the URL and the tag after the first tab *)
Definition split_line (line : string) : string * string :=
  match find_char "009" line with
  | Some i => (strip (take i line), strip (drop (S i) line))
  | None => (line, EmptyString)
  end.

(** the loop of [main] over the lines of the input file *)
Fixpoint main_loop (W : World) (session : Session) (lines : list string)
  : M (list string) (list Dict) :=
  match lines with
  | [] => ret []
  | line :: rest =>
      let '(url, tag) := split_line line in
      res <- process_url W url session ;;
      let res := dict_set "tag" (VStr tag) res in
      results <- main_loop W session rest ;;
      ret (res :: results)
  end.

Local Close Scope m_scope.

(* ================================================================== *)
(** * Palette extraction ([visualscraper_v2.py]) *)

Module Palette.

Definition Pixel : Type := (Z * Z * Z)%type.

(** what [KMeans(...).fit(data)] leaves behind *)
Record KMeansFit : Type := mkFit {
  cluster_centers_ : list (Q * Q * Q);
  labels_ : list nat
}.

(** the image library and the clustering routine *)
Record Vision : Type := mkVision {
  (** [Image.open(path).convert("RGB").resize((150, 150))] as rows of RGB *)
  load_pixels : string -> Result (list Pixel);
  load_pixels_size : forall path px, load_pixels path = Ok px -> List.length px = 22500;
  (** [KMeans(n_clusters=n, n_init=10, random_state=42).fit(data)] *)
  kmeans_fit : nat -> list Pixel -> Result KMeansFit;
  kmeans_shape : forall n px fit, kmeans_fit n px = Ok fit ->
    List.length (cluster_centers_ fit) = n
    /\ List.length (labels_ fit) = List.length px
    /\ Forall (fun l => l < n) (labels_ fit)
}.

(** [np.bincount(labels)]: how often each of [0 .. max(labels)] occurs *)
Definition bincount (labels : list nat) : list nat :=
  match labels with
  | [] => []
  | _ => map (fun k => count_occ Nat.eq_dec labels k) (seq 0 (S (list_max labels)))
  end.

(** [astype(int)] on a coordinate: truncation towards zero *)
Definition trunc (q : Q) : Z := Z.quot (Qnum q) (Zpos (Qden q)).

Definition hex_digit (k : Z) : ascii :=
  nth (Z.to_nat k)
      ["0"; "1"; "2"; "3"; "4"; "5"; "6"; "7"; "8"; "9";
       "a"; "b"; "c"; "d"; "e"; "f"]%char "0"%char.

(** the hexadecimal digits of a natural number, [fuel] bounds their count *)
Fixpoint hex_digits (fuel : nat) (n : Z) (acc : string) : string :=
  match fuel with
  | O => acc
  | S f =>
      let acc := String (hex_digit (n mod 16)) acc in
      if (n / 16 =? 0)%Z then acc else hex_digits f (n / 16) acc
  end.

(** ["%02x" % v] *)
Definition fmt_02x (v : Z) : string :=
  let body := hex_digits (S (Z.to_nat (Z.log2 (Z.abs v)))) (Z.abs v) EmptyString in
  let body := if (v <? 0)%Z then String "-" body else body in
  if Nat.ltb (String.length body) 2 then String "0" body else body.

(** ["#%02x%02x%02x" % tuple(c)] *)
Definition hex_color (c : Z * Z * Z) : string :=
  let '(r, g, b) := c in
  ("#" ++ fmt_02x r ++ fmt_02x g ++ fmt_02x b)%string.

(** the part of [extract_colors] after the fit *)
Definition palette_of_fit (fit : KMeansFit) : list string * list Q :=
  let colors_rgb :=
    map (fun c => let '(r, g, b) := c in (trunc r, trunc g, trunc b)) (cluster_centers_ fit) in
  let counts := bincount (labels_ fit) in
  let total := fold_right Nat.add 0 counts in
  let proportions := map (fun c => (Z.of_nat c # 1) / (Z.of_nat total # 1))%Q counts in
  (map hex_color colors_rgb, proportions).

(** [extract_colors(image_path, n_colors)] *)
Definition extract_colors (V : Vision) (image_path : string) (n_colors : nat)
  : Result (list string * list Q) :=
  rbind (load_pixels V image_path) (fun img_data =>
  rbind (kmeans_fit V n_colors img_data) (fun fit =>
  Ok (palette_of_fit fit))).

Definition Qsum (l : list Q) : Q := fold_right Qplus 0%Q l.

End Palette.

(* ================================================================== *)
(** * Order of first appearance *)




(* ================================================================== *)
(** * The canonical timestamp *)

(** the two tokens of a canonical timestamp: [DD/MM/YYYY] and [HH:MM] *)
Definition date_part (c1 c2 c3 c4 c5 c6 c7 c8 : ascii) : string :=
  String c1 (String c2 (String "/" (String c3 (String c4 (String "/"
    (String c5 (String c6 (String c7 (String c8 EmptyString))))))))).
Definition time_part (c9 c10 c11 c12 : ascii) : string :=
  String c9 (String c10 (String ":" (String c11 (String c12 EmptyString)))).

(* ================================================================== *)
(** * Vocabulary of the statements *)

(** a property of the state that a computation keeps, however it ends *)
Definition preserves {A} (I : PState -> Prop) (m : M PState A) : Prop :=
  forall s, I s -> I (snd (m s)).

(** what the dictionary holds under a key *)
Definition holds (key : string) (v : option Value) (s : PState) : Prop :=
  dict_get key (result s) = v.



(* ================================================================== *)
(** * Example worlds *)

Definition offline {A} : Result A := Raise (mkExn ConnectionError "connection refused").

(** a stand-in for [urljoin] on the bases [get_root_url] gives: absolute
    references are kept, the others are appended to the root *)
Definition simple_urljoin (base url : string) : string :=
  if contains "://" url then url
  else if startswith "/" url then (base ++ url)%string
  else (base ++ "/" ++ url)%string.

Lemma id_perm : forall l : list string, NoDup l -> Permutation (@id (list string) l) l.
Proof. intros l _. apply Permutation_refl. Qed.


(** a world without network, where robots.txt cannot be read *)
Definition offline_world : World :=
  mkWorld (fun _ _ _ => offline) (fun _ => offline) (fun _ => offline) (fun _ => offline)
          (fun _ => []) simple_urljoin (fun _ => Ok []) (fun _ => Ok []) (fun _ => Ok [])
          (fun _ => offline) (@id (list string)) id_perm.




(** a world whose tinycss2 reads one stylesheet: a single rule declaring
    [cursor: pointer] *)
Definition pointer_world : World :=
  mkWorld (fun _ _ _ => Ok true) (fun _ => offline) (fun _ => offline) (fun _ => offline)
          (fun _ => []) simple_urljoin (fun _ => Ok [])
          (fun css =>
             if String.eqb css "body { cursor: pointer }"
             then Ok [QualifiedRule (Ok [Declaration (Some "cursor") " pointer"])]
             else Ok [])
          (fun _ => Ok [])
          (fun _ => offline) (@id (list string)) id_perm.

Definition pointer_page : Soup :=
  [Tag "html" []
     [Tag "head" [] [Tag "style" [] [NavigableString "body { cursor: pointer }"]];
      Tag "body" [] [Tag "p" [] [NavigableString "hello"]]]].


Module PaletteExamples.
Import Palette.

(** a screenshot of one colour: every pixel is white, the fit puts every
    pixel into cluster 0 and all [n] centres on white *)
Definition white : Pixel := (255, 255, 255)%Z.

Definition solid_fit (n : nat) (px : list Pixel) : Result KMeansFit :=
  match n with
  | O => Raise (mkExn ValueError "n_clusters must be positive")
  | S _ => Ok (mkFit (repeat (255 # 1, 255 # 1, 255 # 1)%Q n) (repeat 0 (List.length px)))
  end.

Lemma solid_load_size (path : string) (px : list Pixel) :
  (fun _ : string => Ok (repeat white 22500)) path = Ok px -> List.length px = 22500.
Proof.
  intros H. replace px with (repeat white 22500) by congruence. apply repeat_length.
Qed.

Lemma solid_fit_shape (n : nat) (px : list Pixel) (fit : KMeansFit) :
  solid_fit n px = Ok fit ->
  List.length (cluster_centers_ fit) = n
  /\ List.length (labels_ fit) = List.length px
  /\ Forall (fun l => l < n) (labels_ fit).
Proof.
  destruct n as [ | k ]; intros H; [ discriminate H | ].
  unfold solid_fit in H.
  replace fit with (mkFit (repeat (255 # 1, 255 # 1, 255 # 1)%Q (S k))
                          (repeat 0 (List.length px))) by congruence.
  cbn [cluster_centers_ labels_].
  split; [ apply repeat_length | ]. split; [ apply repeat_length | ].
  apply Forall_forall. intros x Hx. apply repeat_spec in Hx. subst x. lia.
Qed.

Definition solid_vision : Vision :=
  mkVision (fun _ => Ok (repeat white 22500)) solid_load_size solid_fit solid_fit_shape.

End PaletteExamples.

(* ================================================================== *)
(** * Platform classification (C9) *)

Lemma detect_platform_table (url html : string) :
  detect_platform url html
  = rbind (host_of url) (fun host => Ok (first_match host (lower html))).
Proof.
  unfold detect_platform, host_of.
  destruct (Url.urlparse url) as [p | e]; simpl; [ | reflexivity ].
  unfold first_match, platform_rules, rule_matches, contains_any; simpl.
  repeat match goal with
         | |- context [ contains ?k ?t ] =>
             match t with
             | context [ contains ] => fail 1
             | _ => destruct (contains k t); simpl
             end
         end; reflexivity.
Qed.

(** C9, as stated, fails: two bodies without [wp-content], of which one
    mentions [google.com/sites], are classified differently on a host that
    no rule knows. *)
Lemma detect_platform_not_wp_only :
  contains "wp-content" "" = contains "wp-content" "<a href='https://www.google.com/sites/'>"
  /\ contains "wp-content" (lower "")
     = contains "wp-content" (lower "<a href='https://www.google.com/sites/'>")
  /\ detect_platform "https://example.com/" "" = Ok "Unknown"
  /\ detect_platform "https://example.com/" "<a href='https://www.google.com/sites/'>"
     = Ok "Google Sites"
  /\ ~ (forall url h1 h2,
          contains "wp-content" h1 = contains "wp-content" h2 ->
          detect_platform url h1 = detect_platform url h2).
Proof.
  repeat split; try reflexivity.
  intro H.
  specialize (H "https://example.com/" "" "<a href='https://www.google.com/sites/'>" eq_refl).
  vm_compute in H. discriminate H.
Qed.

(** C9, amended: the classification is the first match of the ordered rule
    table, [Unknown] when no rule matches, and it depends on the HTML body
    only through two tests on the lowered body: whether it contains
    [wp-content] (WordPress) and whether it contains [google.com/sites]
    (Google Sites).  Two bodies that agree on both are classified alike for
    every URL. *)
Theorem detect_platform_html_dependence (url h1 h2 : string) :
  contains "wp-content" (lower h1) = contains "wp-content" (lower h2) ->
  contains "google.com/sites" (lower h1) = contains "google.com/sites" (lower h2) ->
  detect_platform url h1 = detect_platform url h2
  /\ detect_platform url h1
     = rbind (host_of url) (fun host => Ok (first_match host (lower h1)))
  /\ (forall host, List.find (rule_matches host (lower h1)) platform_rules = None ->
      first_match host (lower h1) = "Unknown").
Proof.
  intros Hwp Hgs. split; [ | split ].
  - unfold detect_platform.
    destruct (Url.urlparse url) as [p | e]; simpl; [ | reflexivity ].
    rewrite Hwp, Hgs. reflexivity.
  - apply detect_platform_table.
  - intros host Hnone. unfold first_match. rewrite Hnone. reflexivity.
Qed.

Lemma detect_platform_html_dependence_witness :
  detect_platform "https://blog.example.org/post" "<link href='/WP-Content/a.css'>"
  = detect_platform "https://blog.example.org/post" "see wp-content"
  /\ detect_platform "https://blog.example.org/post" "<link href='/WP-Content/a.css'>"
     = Ok "WordPress".
Proof.
  destruct (detect_platform_html_dependence
              "https://blog.example.org/post" "<link href='/WP-Content/a.css'>"
              "see wp-content" eq_refl eq_refl) as [H _].
  split; [ exact H | reflexivity ].
Defined.

(* ================================================================== *)
(** * Language detection on short texts (C3) *)

(** C3: a text that is empty or has fewer than 50 characters gets the empty
    profile: no primary language, confidence 0.0, no detected languages, not
    multilingual; the detector is not consulted. *)
Theorem detect_language_profile_short (W : World) (text : string) :
  text = EmptyString \/ String.length text < 50 ->
  detect_language_profile W text = Ok (EmptyString, 0%Q, EmptyString, false).
Proof.
  intros H.
  assert (Hlen : String.length text < 50).
  { destruct H as [-> | H]; [ simpl; lia | exact H ]. }
  unfold detect_language_profile.
  apply Nat.ltb_lt in Hlen. rewrite Hlen, orb_true_r. reflexivity.
Qed.

Lemma detect_language_profile_short_witness :
  detect_language_profile offline_world "Hola, bienvenidos a mi sitio."
  = Ok (EmptyString, 0%Q, EmptyString, false).
Proof.
  apply (detect_language_profile_short offline_world "Hola, bienvenidos a mi sitio.").
  right. simpl. lia.
Defined.

(* ================================================================== *)
(** * Timestamp canonicalisation (C6) *)

Lemma format_datetime_iso_parsed (s : string) (g : bool) (d : Dates.datetime) :
  parse_date_str s = Some d ->
  format_datetime_iso s g
  = rbind (to_utc d)
          (fun u => Ok (Dates.strftime_dmy_hm u ++ (if g then " GMT" else EmptyString))%string).
Proof.
  intros Hp. unfold format_datetime_iso.
  destruct s as [ | c s' ]; [ discriminate Hp | ].
  cbn [truthy negb]. rewrite Hp.
  destruct (to_utc d) as [u | e]; cbn [rbind]; [ | reflexivity ].
  destruct g; reflexivity.
Qed.





(* ================================================================== *)
(** * One record per URL (C1, C2) *)

Lemma dict_get_set_same (k : string) (v : Value) (d : Dict) :
  dict_get k (dict_set k v d) = Some v.
Proof.
  induction d as [ | [k' v'] r IH ]; simpl.
  - rewrite String.eqb_refl. reflexivity.
  - destruct (String.eqb k k') eqn:E; simpl.
    + rewrite String.eqb_refl. reflexivity.
    + rewrite E. exact IH.
Qed.

Lemma dict_get_set_other (k k' : string) (v : Value) (d : Dict) :
  String.eqb k k' = false ->
  dict_get k (dict_set k' v d) = dict_get k d.
Proof.
  intros Hk. induction d as [ | [k0 v0] r IH ]; simpl.
  - rewrite Hk. reflexivity.
  - destruct (String.eqb k' k0) eqn:E; simpl.
    + apply String.eqb_eq in E. subst k0. rewrite Hk. reflexivity.
    + rewrite IH. reflexivity.
Qed.

Lemma preserves_bind {A B} (I : PState -> Prop) (m : M PState A) (k : A -> M PState B) :
  preserves I m -> (forall a, preserves I (k a)) -> preserves I (bind m k).
Proof.
  intros Hm Hk s Hs. unfold bind.
  specialize (Hm s Hs). destruct (m s) as [[a | e] s']; simpl in *.
  - apply Hk. exact Hm.
  - exact Hm.
Qed.

Lemma preserves_lift {A} (I : PState -> Prop) (r : Result A) : preserves I (lift r).
Proof. intros s Hs. exact Hs. Qed.

Lemma preserves_set_key (key k : string) (v0 : option Value) (v : Value) :
  String.eqb key k = false -> preserves (holds key v0) (set_key k v).
Proof.
  intros Hk s Hs. unfold holds in *. simpl.
  rewrite dict_get_set_other by exact Hk. exact Hs.
Qed.

Lemma preserves_do_fetch (key : string) (v0 : option Value) (W : World) (url : string) :
  preserves (holds key v0) (do_fetch W url).
Proof. intros s Hs. exact Hs. Qed.

Ltac preserve_step :=
  first
    [ apply preserves_set_key; reflexivity
    | apply preserves_lift
    | apply preserves_do_fetch
    | apply preserves_bind; [ | intros ? ]
    | match goal with
      | |- preserves _ (match ?x with _ => _ end) => destruct x
      end ].

(** writing any key but [url] leaves the URL of the record alone *)
Lemma process_url_try_keeps_url (W : World) (url : string) (session : Session) (v0 : option Value) :
  preserves (holds "url" v0) (process_url_try W url session).
Proof.
  unfold process_url_try, extract_all.
  repeat preserve_step.
Qed.

Lemma process_url_returns (W : World) (url : string) (session : Session) (log : list string) :
  exists d log',
    process_url W url session log = (Ok d, log')
    /\ dict_get "url" d = Some (VStr url)
    /\ (forall e s,
          process_url_try W url session (mkPState (initial_result url) log) = (Raise e, s) ->
          dict_get "error" d = Some (VStr (str_of_exn e))).
Proof.
  unfold process_url, try_except.
  pose proof (process_url_try_keeps_url W url session (Some (VStr url))
                (mkPState (initial_result url) log) eq_refl) as Hurl.
  destruct (process_url_try W url session (mkPState (initial_result url) log))
    as [[[] | e] s] eqn:Hrun; simpl in Hurl |- *.
  - exists (result s), (fetch_log s). split; [ reflexivity | ].
    split; [ exact Hurl | ]. intros e s' H. discriminate H.
  - exists (dict_set "error" (VStr (str_of_exn e)) (result s)), (fetch_log s).
    split; [ reflexivity | ]. split.
    + rewrite dict_get_set_other by reflexivity. exact Hurl.
    + intros e' s' H. injection H as -> _. apply dict_get_set_same.
Qed.

Lemma main_loop_returns (W : World) (session : Session) (lines : list string) :
  forall log, exists results log',
    main_loop W session lines log = (Ok results, log')
    /\ List.length results = List.length lines
    /\ Forall2 (fun line res =>
                  dict_get "url" res = Some (VStr (fst (split_line line)))
                  /\ dict_get "tag" res = Some (VStr (snd (split_line line))))
               lines results.
Proof.
  induction lines as [ | line rest IH ]; intros log.
  - exists [], log. repeat split; constructor.
  - simpl. destruct (split_line line) as [url tag] eqn:Hline.
    destruct (process_url_returns W url session log) as (d & log1 & Hp & Hu & _).
    destruct (IH log1) as (results & log2 & Hm & Hlen & Hall).
    exists (dict_set "tag" (VStr tag) d :: results), log2.
    unfold bind. rewrite Hp. rewrite Hm. simpl.
    split; [ reflexivity | ]. split; [ now rewrite Hlen | ].
    constructor; [ | exact Hall ].
    rewrite Hline. simpl. split.
    + rewrite dict_get_set_other by reflexivity. exact Hu.
    + apply dict_get_set_same.
Qed.

(** C1: [process_url] returns a record for every URL and never raises; when
    fetching or extraction raises, the description of the exception is stored
    under [error] and the record is returned all the same.  The loop of
    [main] therefore yields one record per input line, each with the URL and
    the tag of its line, whatever happened to the lines before it. *)
Theorem process_url_one_record_per_url :
  (forall W url session log, exists d log',
      process_url W url session log = (Ok d, log')
      /\ dict_get "url" d = Some (VStr url)
      /\ (forall e s,
            process_url_try W url session (mkPState (initial_result url) log) = (Raise e, s) ->
            dict_get "error" d = Some (VStr (str_of_exn e))))
  /\ (forall W session lines log, exists results log',
      main_loop W session lines log = (Ok results, log')
      /\ List.length results = List.length lines
      /\ Forall2 (fun line res =>
                    dict_get "url" res = Some (VStr (fst (split_line line)))
                    /\ dict_get "tag" res = Some (VStr (snd (split_line line))))
                 lines results).
Proof.
  split.
  - exact process_url_returns.
  - intros W session lines log. apply main_loop_returns.
Qed.

Lemma process_url_one_record_per_url_witness :
  exists results log',
    main_loop offline_world tt ["https://a.example/"; "https://b.example/"] []
    = (Ok results, log')
    /\ List.length results = 2
    /\ Forall2 (fun line res =>
                  dict_get "url" res = Some (VStr (fst (split_line line)))
                  /\ dict_get "tag" res = Some (VStr (snd (split_line line))))
               ["https://a.example/"; "https://b.example/"] results.
Proof.
  exact (proj2 process_url_one_record_per_url offline_world tt
           ["https://a.example/"; "https://b.example/"] []).
Defined.

(** two lines in a world without network: both get their record, with the
    error of the failed fetch *)
Example main_loop_offline :
  main_loop offline_world tt ["https://a.example/"; ("https://b.example/" ++ String "009" "ring")%string] []
  = (Ok [ dict_set "error" (VStr "connection refused") (initial_result "https://a.example/");
          dict_set "tag" (VStr "ring")
            (dict_set "error" (VStr "connection refused") (initial_result "https://b.example/")) ],
     ["https://a.example/"; "https://b.example/"]).
Proof. vm_compute. reflexivity. Qed.



(* ================================================================== *)
(** * The custom cursor flag (C10) *)

Lemma nonempty_length_iff (l : list string) : Nat.ltb 0 (List.length l) = true <-> l <> [].
Proof.
  destruct l as [ | x r ]; simpl; split; intro H; try reflexivity; try discriminate.
  contradiction H. reflexivity.
Qed.

(** C10: the flag [cursor_custom] of [extract_basic_styles] is set exactly
    when a cursor link was collected or the combined CSS text contains
    [cursor:]; a stylesheet that only declares [cursor: pointer] sets the
    flag and leaves [cursor_links] empty. *)
Theorem cursor_custom_iff :
  (forall W soup base st,
      extract_basic_styles W soup base = Ok st ->
      (st_cursor_custom st = true
       <-> (st_cursors st <> [] \/ contains "cursor:" (css_all_of W soup base) = true)))
  /\ (exists st,
        extract_basic_styles pointer_world pointer_page "https://example.com" = Ok st
        /\ st_cursor_custom st = true /\ st_cursors st = []).
Proof.
  split.
  - intros W soup base st H. unfold extract_basic_styles in H.
    destruct (parse_css_for_properties_combined W (css_all_of W soup base))
      as [[[[bg fs] cs] g] | e]; simpl in H; [ | discriminate H ].
    injection H as <-. simpl.
    rewrite orb_true_iff, nonempty_length_iff. reflexivity.
  - eexists. split; [ vm_compute; reflexivity | split; reflexivity ].
Qed.

Lemma cursor_custom_iff_witness :
  st_cursor_custom (mkStyles [] EmptyString true [] [] false) = true
  <-> (st_cursors (mkStyles [] EmptyString true [] [] false) <> []
       \/ contains "cursor:" (css_all_of pointer_world pointer_page "https://example.com") = true).
Proof.
  apply (proj1 cursor_custom_iff pointer_world pointer_page "https://example.com").
  vm_compute. reflexivity.
Defined.

(* ================================================================== *)
(** * Button classification (C4) *)















(** the scenario of the specification: [btn.gif] at 88 by 31 is a GIF and a
    button *)
Example btn_gif_88x31 :
  find_gifs offline_world
    [Tag "img" [("src", "btn.gif"); ("width", "88"); ("height", "31")] []]
    "https://example.com" = ["https://example.com/btn.gif"]
  /\ find_buttons_and_blinkies offline_world
       [Tag "img" [("src", "btn.gif"); ("width", "88"); ("height", "31")] []]
       "https://example.com" (Some tt)
     = (["https://example.com/btn.gif"], []).
Proof. split; vm_compute; reflexivity. Qed.



(* ================================================================== *)
(** * Set-valued fields (C8) *)


























(* ================================================================== *)
(** * The palette (C5) *)

Module PaletteFacts.
Import Palette PaletteExamples.
Local Open Scope nat_scope.

Lemma sum_indicator (a N : nat) :
  a < N ->
  fold_right Nat.add 0 (map (fun k => if Nat.eq_dec a k then 1 else 0) (seq 0 N)) = 1.
Proof.
  intros H.
  assert (G : forall l,
             fold_right Nat.add 0 (map (fun k => if Nat.eq_dec a k then 1 else 0) l)
             = count_occ Nat.eq_dec l a).
  { induction l as [ | k r IH ]; [ reflexivity | ].
    cbn [map fold_right count_occ]. rewrite IH.
    destruct (Nat.eq_dec a k) as [E | E], (Nat.eq_dec k a) as [E' | E'];
      try reflexivity; congruence. }
  rewrite G. apply NoDup_count_occ'; [ apply seq_NoDup | ].
  apply in_seq. lia.
Qed.

Lemma sum_map_add (f g : nat -> nat) (l : list nat) :
  fold_right Nat.add 0 (map (fun k => f k + g k) l)
  = fold_right Nat.add 0 (map f l) + fold_right Nat.add 0 (map g l).
Proof. induction l as [ | a r IH ]; simpl; [ reflexivity | rewrite IH; lia ]. Qed.

Lemma sum_counts (labels : list nat) (N : nat) :
  Forall (fun l => l < N) labels ->
  fold_right Nat.add 0 (map (fun k => count_occ Nat.eq_dec labels k) (seq 0 N))
  = List.length labels.
Proof.
  induction labels as [ | a r IH ]; intros H.
  - simpl. induction (seq 0 N) as [ | k ks IHk ]; simpl; [ reflexivity | exact IHk ].
  - inversion H as [ | ? ? Ha Hr ]; subst.
    transitivity (fold_right Nat.add 0
                    (map (fun k => (if Nat.eq_dec a k then 1 else 0)
                                   + count_occ Nat.eq_dec r k) (seq 0 N))).
    + f_equal. apply map_ext. intros k. simpl. destruct (Nat.eq_dec a k); reflexivity.
    + rewrite sum_map_add, sum_indicator by exact Ha.
      cbn [List.length Nat.add]. f_equal. exact (IH Hr).
Qed.

Lemma labels_below_max (labels : list nat) :
  Forall (fun l => l < S (list_max labels)) labels.
Proof.
  apply Forall_forall. intros x Hx.
  pose proof (proj1 (list_max_le labels (list_max labels)) (Nat.le_refl _)) as H.
  rewrite Forall_forall in H. specialize (H x Hx). lia.
Qed.

(** the counts of [bincount] add up to the number of labels *)
Lemma bincount_sum (labels : list nat) :
  fold_right Nat.add 0 (bincount labels) = List.length labels.
Proof.
  destruct labels as [ | a r ]; [ reflexivity | ].
  unfold bincount. apply sum_counts, labels_below_max.
Qed.

(** [bincount] has one entry per value up to the largest label: fewer than
    [n] entries when the last clusters are empty *)
Lemma bincount_length (labels : list nat) :
  labels <> [] -> List.length (bincount labels) = S (list_max labels).
Proof.
  intros H. destruct labels as [ | a r ]; [ contradiction | ].
  unfold bincount. rewrite length_map, length_seq. reflexivity.
Qed.

Lemma Qsum_scaled (counts : list nat) (t : Q) :
  Qeq (Qsum (map (fun c => (Z.of_nat c # 1) / t)%Q counts))
      ((Z.of_nat (fold_right Nat.add 0%nat counts) # 1) / t)%Q.
Proof.
  induction counts as [ | c r IH ]; simpl.
  - unfold Qdiv. rewrite Qmult_0_l. reflexivity.
  - unfold Qsum in IH. rewrite IH. unfold Qdiv.
    rewrite <- Qmult_plus_distr_l. apply Qmult_comp; [ | reflexivity ].
    rewrite Nat2Z.inj_add. unfold Qeq, Qplus. simpl. lia.
Qed.

(** what [extract_colors] guarantees: [n] hexadecimal colours, proportions
    that add up to one, and one proportion per label value up to the largest
    label the fit assigned *)
Lemma extract_colors_shape (V : Vision) (path : string) (n : nat)
  (hex : list string) (props : list Q) :
  extract_colors V path n = Ok (hex, props) ->
  List.length hex = n
  /\ Qeq (Qsum props) 1
  /\ List.length props <= n
  /\ exists fit px,
       load_pixels V path = Ok px /\ kmeans_fit V n px = Ok fit
       /\ List.length props = S (list_max (labels_ fit)).
Proof.
  unfold extract_colors. intros H.
  destruct (load_pixels V path) as [px | e] eqn:Hload; simpl in H; [ | discriminate H ].
  destruct (kmeans_fit V n px) as [fit | e] eqn:Hfit; simpl in H; [ | discriminate H ].
  destruct (kmeans_shape V n px fit Hfit) as (Hc & Hl & Hlt).
  pose proof (load_pixels_size V path px Hload) as Hsize.
  assert (Hne : labels_ fit <> []).
  { intros E. rewrite E in Hl. simpl in Hl. rewrite Hsize in Hl. discriminate Hl. }
  unfold palette_of_fit in H. injection H as <- <-.
  rewrite !length_map, Hc, bincount_length by exact Hne.
  split; [ reflexivity | ]. split; [ | split ].
  - rewrite Qsum_scaled, bincount_sum.
    unfold Qdiv. apply Qmult_inv_r.
    unfold Qeq. simpl. destruct (labels_ fit); [ contradiction | simpl; lia ].
  - assert (Hmax : list_max (labels_ fit) < n) by (apply list_max_lt; assumption).
    lia.
  - exists fit, px. repeat split; assumption.
Qed.

(** C5 at a screenshot of one colour with five colours requested: five
    hexadecimal colours come back, and a single proportion *)
Theorem extract_colors_solid_image :
  exists hex props,
    extract_colors solid_vision "screenshots/blank.png" 5 = Ok (hex, props)
    /\ hex = ["#ffffff"; "#ffffff"; "#ffffff"; "#ffffff"; "#ffffff"]%string
    /\ List.length props = 1
    /\ List.length hex <> List.length props.
Proof.
  eexists. eexists. split; [ vm_compute; reflexivity | ].
  split; [ reflexivity | ]. split; [ reflexivity | ]. simpl. lia.
Qed.

End PaletteFacts.

(* ================================================================== *)
(** * Formatting twice (C7) *)

Lemma digit_of_is_digit (k : Z) : is_digit (Dates.digit_of k) = true.
Proof.
  unfold Dates.digit_of. generalize (Z.to_nat (k mod 10)). intros n.
  do 10 (destruct n as [ | n ]; [ reflexivity | ]). destruct n; reflexivity.
Qed.

Lemma digit_range (c : ascii) : is_digit c = true -> 48 <= code c <= 57.
Proof.
  unfold is_digit, between. intros H. apply andb_true_iff in H. destruct H as [H1 H2].
  apply Nat.leb_le in H1, H2. lia.
Qed.

Lemma digit_not_space (c : ascii) : is_digit c = true -> is_space c = false.
Proof.
  intros H. apply digit_range in H. unfold is_space, between.
  destruct (Nat.leb_spec 9 (code c)), (Nat.leb_spec (code c) 13),
           (Nat.leb_spec 28 (code c)), (Nat.leb_spec (code c) 32); simpl; try reflexivity; lia.
Qed.

Lemma digit_not_upper (c : ascii) : is_digit c = true -> is_upper c = false.
Proof.
  intros H. apply digit_range in H. unfold is_upper, between.
  destruct (Nat.leb_spec 65 (code c)), (Nat.leb_spec (code c) 90); simpl; try reflexivity; lia.
Qed.

Lemma digit_lower (c : ascii) : is_digit c = true -> lower_char c = c.
Proof. intros H. unfold lower_char. rewrite (digit_not_upper c H). reflexivity. Qed.

Lemma digit_neq_l (k c : ascii) : is_digit k = false -> is_digit c = true -> Ascii.eqb k c = false.
Proof. intros Hk Hc. apply Ascii.eqb_neq. intros ->. congruence. Qed.

Lemma digit_neq_r (k c : ascii) : is_digit k = false -> is_digit c = true -> Ascii.eqb c k = false.
Proof. intros Hk Hc. apply Ascii.eqb_neq. intros ->. congruence. Qed.

Lemma split_ws_aux_nonspace (c : ascii) (cur : list ascii) (s : string) :
  is_space c = false -> split_ws_aux cur (String c s) = split_ws_aux (c :: cur) s.
Proof. intros H. cbn [split_ws_aux]. rewrite H. reflexivity. Qed.

Lemma split_ws_aux_space (c : ascii) (cur : list ascii) (s : string) :
  split_ws_aux (c :: cur) (String " " s)
  = string_of_list_ascii (List.rev (c :: cur)) :: split_ws_aux [] s.
Proof. reflexivity. Qed.

Section Canonical.
Variables c1 c2 c3 c4 c5 c6 c7 c8 c9 c10 c11 c12 : ascii.
Hypothesis (H1 : is_digit c1 = true) (H2 : is_digit c2 = true) (H3 : is_digit c3 = true)
  (H4 : is_digit c4 = true) (H5 : is_digit c5 = true) (H6 : is_digit c6 = true)
  (H7 : is_digit c7 = true) (H8 : is_digit c8 = true) (H9 : is_digit c9 = true)
  (H10 : is_digit c10 = true) (H11 : is_digit c11 = true) (H12 : is_digit c12 = true).

Let date := date_part c1 c2 c3 c4 c5 c6 c7 c8.
Let time := time_part c9 c10 c11 c12.

Lemma split_ws_gmt : split_ws (date ++ " " ++ time ++ " GMT") = [date; time; "GMT"].
Proof.
  unfold split_ws, date, time, date_part, time_part. cbn [append].
  repeat first [ rewrite split_ws_aux_nonspace by (first [ apply digit_not_space; assumption | reflexivity ])
               | rewrite split_ws_aux_space ].
  reflexivity.
Qed.

Lemma split_ws_plain : split_ws (date ++ " " ++ time) = [date; time].
Proof.
  unfold split_ws, date, time, date_part, time_part. cbn [append].
  repeat first [ rewrite split_ws_aux_nonspace by (first [ apply digit_not_space; assumption | reflexivity ])
               | rewrite split_ws_aux_space ].
  reflexivity.
Qed.

Ltac digit_rw :=
  repeat match goal with
         | Hd : is_digit ?c = true |- context [ Ascii.eqb ?k ?c ] =>
             rewrite (digit_neq_l k c eq_refl Hd)
         | Hd : is_digit ?c = true |- context [ Ascii.eqb ?c ?k ] =>
             rewrite (digit_neq_r k c eq_refl Hd)
         | Hd : is_digit ?c = true |- context [ lower_char ?c ] =>
             rewrite (digit_lower c Hd)
         | Hd : is_digit ?c = true |- context [ is_digit ?c ] =>
             rewrite Hd
         end.

Lemma date_no_trailing_comma : endswith "," date = false.
Proof.
  unfold endswith, rev, date, date_part.
  cbn [list_ascii_of_string List.rev app string_of_list_ascii startswith].
  digit_rw. reflexivity.
Qed.

Lemma date_no_dayname : mem (lower date) Dates._daynames = false.
Proof.
  unfold mem, Dates._daynames, date, date_part.
  cbn [lower existsb String.eqb].
  digit_rw. reflexivity.
Qed.

Lemma date_no_comma : rfind_char "," date = None.
Proof.
  unfold rfind_char, rev, date, date_part.
  cbn [list_ascii_of_string List.rev app string_of_list_ascii find_char].
  digit_rw. reflexivity.
Qed.

Lemma date_no_dash : split_char "-" date = [date].
Proof.
  unfold date, date_part.
  repeat (cbn [split_char]; digit_rw;
          match goal with
          | |- context [ Ascii.eqb "-" "/" ] => change (Ascii.eqb "-" "/") with false; cbv iota
          | _ => idtac
          end).
  reflexivity.
Qed.

Lemma adjust_gmt :
  Dates.split_zone (Dates.split_rfc850 (Dates.skip_dayname [date; time; "GMT"]))
  = [date; time; "GMT"].
Proof.
  unfold Dates.skip_dayname.
  rewrite date_no_trailing_comma, date_no_dayname, date_no_comma. cbn [orb].
  unfold Dates.split_rfc850. rewrite date_no_dash. reflexivity.
Qed.

Lemma adjust_plain :
  Dates.split_zone (Dates.split_rfc850 (Dates.skip_dayname [date; time]))
  = [date; time].
Proof.
  unfold Dates.skip_dayname.
  rewrite date_no_trailing_comma, date_no_dayname, date_no_comma. reflexivity.
Qed.

Lemma parsedate_tz_gmt : Dates._parsedate_tz (date ++ " " ++ time ++ " GMT") = None.
Proof.
  unfold Dates._parsedate_tz.
  change (truthy (date ++ " " ++ time ++ " GMT")) with true. cbn [negb].
  rewrite split_ws_gmt. cbv beta iota zeta.
  rewrite adjust_gmt. reflexivity.
Qed.

Lemma parsedate_tz_plain : Dates._parsedate_tz (date ++ " " ++ time) = None.
Proof.
  unfold Dates._parsedate_tz.
  change (truthy (date ++ " " ++ time)) with true. cbn [negb].
  rewrite split_ws_plain. cbv beta iota zeta.
  rewrite adjust_plain. reflexivity.
Qed.

Lemma fromisoformat_rejects (rest : string) :
  Dates.fromisoformat (date ++ rest) = None.
Proof.
  unfold Dates.fromisoformat, date, date_part.
  cbn [append take Dates.parse_isoformat_date Dates.all_digits].
  digit_rw. reflexivity.
Qed.
End Canonical.

Lemma replace_absent (k : ascii) (new s : string) :
  Url.all_chars (fun c => negb (Ascii.eqb k c)) s = true ->
  replace (String k EmptyString) new s = s.
Proof.
  unfold replace. induction s as [ | c s IH ]; intros H; [ reflexivity | ].
  cbn [Url.all_chars] in H. apply andb_true_iff in H. destruct H as [Hc Hs].
  cbn [replace_aux startswith]. apply negb_true_iff in Hc. rewrite Hc. cbn [andb].
  rewrite (IH Hs). reflexivity.
Qed.

Lemma strftime_shape (u : Dates.datetime) :
  Dates.strftime_dmy_hm u
  = (date_part (Dates.digit_of (Dates.day u / 10)) (Dates.digit_of (Dates.day u))
               (Dates.digit_of (Dates.month u / 10)) (Dates.digit_of (Dates.month u))
               (Dates.digit_of (Dates.year u / 1000)) (Dates.digit_of (Dates.year u / 100))
               (Dates.digit_of (Dates.year u / 10)) (Dates.digit_of (Dates.year u))
     ++ " "
     ++ time_part (Dates.digit_of (Dates.hour u / 10)) (Dates.digit_of (Dates.hour u))
                  (Dates.digit_of (Dates.minute u / 10)) (Dates.digit_of (Dates.minute u)))%string.
Proof. reflexivity. Qed.

Lemma canonical_no_Z (c1 c2 c3 c4 c5 c6 c7 c8 c9 c10 c11 c12 : ascii) (g : bool) :
  is_digit c1 = true -> is_digit c2 = true -> is_digit c3 = true -> is_digit c4 = true ->
  is_digit c5 = true -> is_digit c6 = true -> is_digit c7 = true -> is_digit c8 = true ->
  is_digit c9 = true -> is_digit c10 = true -> is_digit c11 = true -> is_digit c12 = true ->
  Url.all_chars (fun c => negb (Ascii.eqb "Z" c))
    (date_part c1 c2 c3 c4 c5 c6 c7 c8 ++ " " ++ time_part c9 c10 c11 c12
     ++ (if g then " GMT" else EmptyString)) = true.
Proof.
  intros. unfold date_part, time_part. cbn [append Url.all_chars].
  repeat match goal with
         | Hd : is_digit ?c = true |- context [ Ascii.eqb "Z" ?c ] =>
             rewrite (digit_neq_l "Z" c eq_refl Hd)
         end.
  destruct g; reflexivity.
Qed.

Lemma canonical_unparseable (c1 c2 c3 c4 c5 c6 c7 c8 c9 c10 c11 c12 : ascii) (g : bool) :
  is_digit c1 = true -> is_digit c2 = true -> is_digit c3 = true -> is_digit c4 = true ->
  is_digit c5 = true -> is_digit c6 = true -> is_digit c7 = true -> is_digit c8 = true ->
  is_digit c9 = true -> is_digit c10 = true -> is_digit c11 = true -> is_digit c12 = true ->
  parse_date_str
    (date_part c1 c2 c3 c4 c5 c6 c7 c8 ++ " " ++ time_part c9 c10 c11 c12
     ++ (if g then " GMT" else EmptyString)) = None.
Proof.
  intros H1 H2 H3 H4 H5 H6 H7 H8 H9 H10 H11 H12. unfold parse_date_str.
  rewrite replace_absent by (apply canonical_no_Z; assumption).
  rewrite fromisoformat_rejects by assumption.
  unfold Dates.parsedate_to_datetime.
  destruct g.
  - rewrite parsedate_tz_gmt by assumption. reflexivity.
  - replace (time_part c9 c10 c11 c12 ++ EmptyString)%string with (time_part c9 c10 c11 c12)
      by reflexivity.
    rewrite parsedate_tz_plain by assumption. reflexivity.
Qed.

Lemma canonical_is_fixed (u : Dates.datetime) (g g' : bool) :
  format_datetime_iso
    (Dates.strftime_dmy_hm u ++ (if g then " GMT" else EmptyString)) g'
  = Ok (Dates.strftime_dmy_hm u ++ (if g then " GMT" else EmptyString))%string.
Proof.
  assert (E : (Dates.strftime_dmy_hm u ++ (if g then " GMT" else EmptyString))%string
              = (date_part (Dates.digit_of (Dates.day u / 10)) (Dates.digit_of (Dates.day u))
               (Dates.digit_of (Dates.month u / 10)) (Dates.digit_of (Dates.month u))
               (Dates.digit_of (Dates.year u / 1000)) (Dates.digit_of (Dates.year u / 100))
               (Dates.digit_of (Dates.year u / 10)) (Dates.digit_of (Dates.year u))
     ++ " "
     ++ time_part (Dates.digit_of (Dates.hour u / 10)) (Dates.digit_of (Dates.hour u))
                  (Dates.digit_of (Dates.minute u / 10)) (Dates.digit_of (Dates.minute u))
     ++ (if g then " GMT" else EmptyString))%string).
  { destruct g; reflexivity. }
  rewrite E. unfold format_datetime_iso.
  rewrite canonical_unparseable by apply digit_of_is_digit.
  reflexivity.
Qed.

(** C7: formatting is idempotent: formatting what [format_datetime_iso]
    returned gives the same string again (and raises the same exception when
    the first call raised).  A canonical string such as
    [02/01/2021 10:00 GMT] is returned as it is, because a string that parses
    neither as ISO 8601 nor as RFC 2822 is returned unmodified. *)
Theorem format_datetime_iso_idempotent :
  (forall s g g',
      rbind (format_datetime_iso s g) (fun t => format_datetime_iso t g')
      = format_datetime_iso s g)
  /\ format_datetime_iso "02/01/2021 10:00 GMT" true = Ok "02/01/2021 10:00 GMT"
  /\ (forall s g, parse_date_str s = None -> format_datetime_iso s g = Ok s).
Proof.
  assert (Hnone : forall s g, parse_date_str s = None -> format_datetime_iso s g = Ok s).
  { intros s g H. unfold format_datetime_iso. rewrite H.
    destruct s; reflexivity. }
  split; [ | split; [ vm_compute; reflexivity | exact Hnone ] ].
  intros s g g'.
  destruct (parse_date_str s) as [d | ] eqn:Hp.
  - rewrite (format_datetime_iso_parsed s g d Hp).
    destruct (to_utc d) as [u | e]; cbn [rbind]; [ | reflexivity ].
    apply canonical_is_fixed.
  - rewrite (Hnone s g Hp). cbn [rbind]. apply Hnone. exact Hp.
Qed.

Lemma format_datetime_iso_idempotent_witness :
  format_datetime_iso "sometime last spring" true = Ok "sometime last spring".
Proof.
  apply (proj2 (proj2 format_datetime_iso_idempotent) "sometime last spring" true).
  vm_compute. reflexivity.
Defined.
